(** * NSE ticker search: a shallow embedding of [app/services.py]

    The development follows the Python module function by function:
    the string helpers the search relies on ([str.lower], [str.upper],
    [str.strip], the [in] substring test), the JSON catalog, the three
    module globals with the loader and the cached equity list, the indexed
    three-tier search with its [try]/[except] fallback, the linear scan and
    the popular-stocks entry point. Around the service it covers the
    catalog builder of [create_search_json.py], the routes of [main.py]
    that call the service, and the text parsing of the price fetch.

    Conventions.
    - Python [str] values are [string]s of ASCII characters; case mapping
      touches the 26 letters only. No statement rests on [lower] and
      [upper] undoing each other: where that is needed of a query, it is a
      hypothesis of the statement.
    - Python [int] ticker ids are [Z]; list subscripting follows Python
      (negative subscripts count from the end, anything else out of range
      raises [IndexError]).
    - A [dict] that the code iterates over is an association list in
      iteration order; the result [set] of ticker ids is a [gset Z].
    - The globals are threaded explicitly; one call sees one environment
      (the JSON file as the loader would parse it, and one clock reading,
      in whole seconds). *)

From Stdlib Require Import Ascii String.
From stdpp Require Import base numbers option list sets gmap strings sorting.

Local Open Scope string_scope.
Local Open Scope Z_scope.
Local Open Scope list_scope.

(** ** Python string operations *)

Module PyStr.

Definition is_upper (c : ascii) : bool :=
  let n := nat_of_ascii c in ((65 <=? n) && (n <=? 90))%nat.

Definition is_lower (c : ascii) : bool :=
  let n := nat_of_ascii c in ((97 <=? n) && (n <=? 122))%nat.

Definition lower_char (c : ascii) : ascii :=
  if is_upper c then ascii_of_nat (nat_of_ascii c + 32) else c.

Definition upper_char (c : ascii) : ascii :=
  if is_lower c then ascii_of_nat (nat_of_ascii c - 32) else c.

(** [s.lower()] and [s.upper()] *)
Fixpoint lower (s : string) : string :=
  match s with
  | EmptyString => EmptyString
  | String c s' => String (lower_char c) (lower s')
  end.

Fixpoint upper (s : string) : string :=
  match s with
  | EmptyString => EmptyString
  | String c s' => String (upper_char c) (upper s')
  end.

(** The ASCII characters for which [str.isspace] holds: tab, line feed,
    vertical tab, form feed, carriage return, the four separators
    0x1c-0x1f and the space. *)
Definition is_space (c : ascii) : bool :=
  let n := nat_of_ascii c in
  (((9 <=? n) && (n <=? 13)) || ((28 <=? n) && (n <=? 32)))%nat.

Fixpoint lstrip (s : string) : string :=
  match s with
  | EmptyString => EmptyString
  | String c s' => if is_space c then lstrip s' else s
  end.

Fixpoint rstrip (s : string) : string :=
  match s with
  | EmptyString => EmptyString
  | String c s' =>
      match rstrip s' with
      | EmptyString => if is_space c then EmptyString else String c EmptyString
      | r => String c r
      end
  end.

(** [s.strip()] *)
Definition strip (s : string) : string := rstrip (lstrip s).

(** [len(s)] *)
Definition len (s : string) : Z := Z.of_nat (String.length s).

Fixpoint startswith (p s : string) : bool :=
  match p, s with
  | EmptyString, _ => true
  | String a p', String b s' => if Ascii.eqb a b then startswith p' s' else false
  | String _ _, EmptyString => false
  end.

(** [needle in hay] on strings *)
Fixpoint contains (needle hay : string) : bool :=
  startswith needle hay ||
  match hay with
  | EmptyString => false
  | String _ hay' => contains needle hay'
  end.

End PyStr.

(** ** Data model *)

(** One record of the ["tickers"] list of [nse_tickers_search.json]. *)
Record Ticker := mkTicker {
  ticker_id : Z;
  ticker_symbol : string;
  ticker_name : string
}.

(** The [{"symbol": ..., "name": ...}] dictionaries the service returns. *)
Record Stock := mkStock {
  stock_symbol : string;
  stock_name : string
}.

Global Instance Stock_eq_dec : EqDecision Stock.
Proof. solve_decision. Defined.

(** A [dict] with string keys, in iteration order. *)
Definition dict (V : Type) : Type := list (string * V).

(** [d.get(k)], also used for [k in d] and [d[k]]. *)
Fixpoint dict_get {V} (k : string) (d : dict V) : option V :=
  match d with
  | [] => None
  | (k', v) :: d' => if String.eqb k k' then Some v else dict_get k d'
  end.

(** The parsed JSON document. Every top-level key may be absent. *)
Record JsonData := mkJson {
  tickers : option (list Ticker);
  symbolIndex : option (dict Z);
  nameIndex : option (dict (list Z))
}.

(** Python exceptions that the modelled code can raise. *)
Inductive PyError := IndexError.

Inductive exc (A : Type) : Type :=
| Return (a : A)
| Raise (e : PyError).
Arguments Return {A} a.
Arguments Raise {A} e.

(** [l[i]] on a Python list. *)
Definition py_getitem {A} (l : list A) (i : Z) : exc A :=
  let n := Z.of_nat (length l) in
  let j := if i <? 0 then i + n else i in
  if (j <? 0) || (n <=? j) then Raise IndexError
  else match l !! Z.to_nat j with
       | Some a => Return a
       | None => Raise IndexError
       end.

(** ** Module globals and the environment of one call *)

Record Globals := mkGlobals {
  _json_data : option JsonData;
  _nse_stocks_cache : option (list Stock);
  _cache_timestamp : option Z
}.

Definition initial_globals : Globals := mkGlobals None None None.

Record Env := mkEnv {
  (** what [json.load] yields for the first of the candidate paths that
      exists; [None] when no path exists or reading fails *)
  env_file : option JsonData;
  (** [time.time()] *)
  env_time : Z
}.

Definition M (A : Type) : Type := Env → Globals → A * Globals.

Global Instance M_ret : MRet M := λ A a _ g, (a, g).
Global Instance M_bind : MBind M := λ A B f c env g,
  let '(a, g') := c env g in f a env g'.

Definition read_globals : M Globals := λ _ g, (g, g).
Definition write_json_data (v : option JsonData) : M unit := λ _ g,
  (tt, mkGlobals v (_nse_stocks_cache g) (_cache_timestamp g)).
Definition write_cache (stocks : list Stock) (t : Z) : M unit := λ _ g,
  (tt, mkGlobals (_json_data g) (Some stocks) (Some t)).
Definition open_json_file : M (option JsonData) := λ env g, (env_file env, g).
Definition time_time : M Z := λ env g, (env_time env, g).

(** ** The service functions *)

Definition load_nse_json_data : M (option JsonData) :=
  g ← read_globals;
  match _json_data g with
  | Some jd => mret (Some jd)
  | None =>
      f ← open_json_file;
      match f with
      | None => mret None
      | Some jd => _ ← write_json_data (Some jd); mret (Some jd)
      end
  end.

Definition get_fallback_stocks : list Stock :=
  [ mkStock "RELIANCE" "Reliance Industries Limited";
    mkStock "TCS" "Tata Consultancy Services Limited";
    mkStock "HDFCBANK" "HDFC Bank Limited";
    mkStock "INFY" "Infosys Limited";
    mkStock "ICICIBANK" "ICICI Bank Limited";
    mkStock "HINDUNILVR" "Hindustan Unilever Limited";
    mkStock "SBIN" "State Bank of India";
    mkStock "BHARTIARTL" "Bharti Airtel Limited";
    mkStock "ITC" "ITC Limited";
    mkStock "LT" "Larsen & Toubro Limited";
    mkStock "WIPRO" "Wipro Limited";
    mkStock "TITAN" "Titan Company Limited";
    mkStock "HCLTECH" "HCL Technologies Limited";
    mkStock "TECHM" "Tech Mahindra Limited";
    mkStock "AXISBANK" "Axis Bank Limited";
    mkStock "ULTRACEMCO" "Ultratech Cement Limited";
    mkStock "ASIANPAINT" "Asian Paints Limited";
    mkStock "MARUTI" "Maruti Suzuki India Limited";
    mkStock "BAJAJ-AUTO" "Bajaj Auto Limited";
    mkStock "DRREDDY" "Dr. Reddy's Laboratories Limited";
    mkStock "COALINDIA" "Coal India Limited";
    mkStock "POWERGRID" "Power Grid Corporation of India Limited";
    mkStock "JSWSTEEL" "JSW Steel Limited";
    mkStock "TATASTEEL" "Tata Steel Limited";
    mkStock "DIVISLAB" "Divi's Laboratories Limited" ].

(** The [{"symbol": ticker["symbol"], "name": ticker["name"]}] projection. *)
Definition stock_of (t : Ticker) : Stock :=
  mkStock (ticker_symbol t) (ticker_name t).

(** The cache test of [fetch_nse_equity_list]: both globals are set and the
    cache is less than twelve hours old. *)
Definition fresh_cache (g : Globals) (current_time : Z) : option (list Stock) :=
  match _nse_stocks_cache g, _cache_timestamp g with
  | Some cached, Some stamp =>
      if current_time - stamp <? 43200 then Some cached else None
  | _, _ => None
  end.

Definition fetch_nse_equity_list : M (list Stock) :=
  current_time ← time_time;
  g ← read_globals;
  match fresh_cache g current_time with
  | Some cached => mret cached
  | None =>
      json_data ← load_nse_json_data;
      (* [if json_data and "tickers" in json_data]: a dictionary that has
         the key is not empty, so the test is the presence of the key *)
      match json_data ≫= tickers with
      | Some tks =>
          let stocks := stock_of <$> tks in
          _ ← write_cache stocks current_time; mret stocks
      | None => mret get_fallback_stocks
      end
  end.

(** *** Linear scan *)

Definition stock_matches (query_lower : string) (stock : Stock) : bool :=
  let symbol := PyStr.lower (stock_symbol stock) in
  let name := PyStr.lower (stock_name stock) in
  PyStr.contains query_lower symbol || PyStr.contains query_lower name.

(** The [for stock in nse_stocks] loop of [_search_in_list]; [results] is
    the list built so far, and the loop is left as soon as it holds ten
    stocks. *)
Fixpoint _search_in_list_loop
    (query_lower : string) (nse_stocks results : list Stock) : list Stock :=
  match nse_stocks with
  | [] => results
  | stock :: rest =>
      if stock_matches query_lower stock then
        let results := results ++ [stock] in
        if (10 <=? length results)%nat then results
        else _search_in_list_loop query_lower rest results
      else _search_in_list_loop query_lower rest results
  end.

Definition _search_in_list (query_lower : string) (nse_stocks : list Stock)
  : list Stock :=
  match nse_stocks with
  | [] => []
  | _ => _search_in_list_loop query_lower nse_stocks []
  end.

(** *** Indexed search: the three tiers *)

(** Tier 1, the exact symbol lookup with [query.upper()]. *)
Definition tier1 (query : string) (tks : list Ticker) (symbol_index : dict Z)
    (results_set : gset Z) : gset Z :=
  let query_upper := PyStr.upper query in
  match dict_get query_upper symbol_index with
  | Some ticker_id =>
      if ticker_id <? Z.of_nat (length tks) then {[ticker_id]} ∪ results_set
      else results_set
  | None => results_set
  end.

(** Tier 2, [for symbol, ticker_id in symbol_index.items()]. *)
Fixpoint tier2 (query_lower : string) (symbol_index : dict Z)
    (results_set : gset Z) : gset Z :=
  match symbol_index with
  | [] => results_set
  | (symbol, ticker_id) :: rest =>
      if PyStr.contains query_lower (PyStr.lower symbol) then
        let results_set := {[ticker_id]} ∪ results_set in
        if (20 <=? size results_set)%nat then results_set
        else tier2 query_lower rest results_set
      else tier2 query_lower rest results_set
  end.

(** Tier 3, inner loop [for ticker_id in ticker_ids]. *)
Fixpoint tier3_ids (ticker_ids : list Z) (results_set : gset Z) : gset Z :=
  match ticker_ids with
  | [] => results_set
  | ticker_id :: rest =>
      let results_set := {[ticker_id]} ∪ results_set in
      if (20 <=? size results_set)%nat then results_set
      else tier3_ids rest results_set
  end.

(** Tier 3, outer loop [for name, ticker_ids in name_index.items()]. The
    [break] of the inner loop leaves the inner loop only. *)
Fixpoint tier3 (query_lower : string) (name_index : dict (list Z))
    (results_set : gset Z) : gset Z :=
  match name_index with
  | [] => results_set
  | (name, ticker_ids) :: rest =>
      if PyStr.contains query_lower name then
        tier3 query_lower rest (tier3_ids ticker_ids results_set)
      else tier3 query_lower rest results_set
  end.

(** The value of [results_set] when the three tiers are done. *)
Definition accumulate (query query_lower : string) (tks : list Ticker)
    (symbol_index : dict Z) (name_index : dict (list Z)) : gset Z :=
  tier3 query_lower name_index
    (tier2 query_lower symbol_index
       (tier1 query tks symbol_index ∅)).

(** [sorted(results_set)] *)
Definition sorted (results_set : gset Z) : list Z :=
  merge_sort Z.le (elements results_set).

(** The [for ticker_id in sorted(results_set)] loop. *)
Fixpoint build_results (tks : list Ticker) (ids : list Z)
    (results : list Stock) : exc (list Stock) :=
  match ids with
  | [] => Return results
  | ticker_id :: rest =>
      if ticker_id <? Z.of_nat (length tks) then
        match py_getitem tks ticker_id with
        | Return ticker => build_results tks rest (results ++ [stock_of ticker])
        | Raise e => Raise e
        end
      else build_results tks rest results
  end.

(** The body of the [try] block of [search_nse_stocks] from the point where
    the ticker list is known to be present. *)
Definition indexed_search (query query_lower : string) (tks : list Ticker)
    (symbol_index : dict Z) (name_index : dict (list Z)) : exc (list Stock) :=
  let results_set := accumulate query query_lower tks symbol_index name_index in
  match build_results tks (sorted results_set) [] with
  | Return results => Return (take 10 results)
  | Raise e => Raise e
  end.

(** [not query or len(query.strip()) < 1] *)
Definition empty_query (query : string) : bool :=
  match query with
  | EmptyString => true
  | _ => PyStr.len (PyStr.strip query) <? 1
  end.

Definition search_nse_stocks (query : string) : M (list Stock) :=
  if empty_query query then mret []
  else
    let query_lower := PyStr.strip (PyStr.lower query) in
    json_data ← load_nse_json_data;
    match json_data ≫= tickers, json_data with
    | Some tks, Some jd =>
        (* [json_data.get("symbolIndex", {})], [json_data.get("nameIndex", {})] *)
        let symbol_index := default [] (symbolIndex jd) in
        let name_index := default [] (nameIndex jd) in
        match indexed_search query query_lower tks symbol_index name_index with
        | Return results => mret results
        | Raise _ =>
            nse_stocks ← fetch_nse_equity_list;
            mret (_search_in_list query_lower nse_stocks)
        end
    | _, _ =>
        nse_stocks ← fetch_nse_equity_list;
        mret (_search_in_list query_lower nse_stocks)
    end.

Definition get_nse_indices : M (list Stock) :=
  all_stocks ← fetch_nse_equity_list;
  match all_stocks with
  | [] => mret get_fallback_stocks
  | _ => mret (take 25 all_stocks)
  end.

(** ** Predicates used in the statements *)

(** [needle] occurs in [hay] as a contiguous block. *)
Definition is_substring (needle hay : string) : Prop :=
  ∃ pre post : string, hay = pre +:+ needle +:+ post.

(** The ids that survive finalization: the sorted accumulated ids that pass
    the guard [ticker_id < len(tickers)], cut to ten. *)
Definition kept_ids (tks : list Ticker) (results_set : gset Z) : list Z :=
  take 10 (filter (λ i, i < Z.of_nat (length tks)) (sorted results_set)).

(** [s] is the [{symbol, name}] pair of [tickers[i]]. *)
Definition stock_at (tks : list Ticker) (i : Z) (s : Stock) : Prop :=
  ∃ t, py_getitem tks i = Return t ∧ s = stock_of t.

(** The valid range of ticker ids of a ticker list. *)
Definition in_range (tks : list Ticker) (i : Z) : Prop :=
  0 ≤ i < Z.of_nat (length tks).

(** The cached equity list is always the projection of the ticker list of
    the cached JSON document. *)
Definition globals_wf (g : Globals) : Prop :=
  ∀ cached, _nse_stocks_cache g = Some cached →
    ∃ jd tks, _json_data g = Some jd ∧ tickers jd = Some tks
              ∧ cached = stock_of <$> tks.

(** The states of the globals that calls of the service functions lead to,
    whatever the file and the clock are at each call. *)
Inductive reachable : Globals → Prop :=
| reach_init : reachable initial_globals
| reach_load env g : reachable g → reachable (snd (load_nse_json_data env g))
| reach_fetch env g : reachable g → reachable (snd (fetch_nse_equity_list env g))
| reach_search query env g :
    reachable g → reachable (snd (search_nse_stocks query env g))
| reach_indices env g : reachable g → reachable (snd (get_nse_indices env g)).

(** The catalog with every absent index replaced by an empty mapping. *)
Definition with_empty_indexes (jd : JsonData) : JsonData :=
  mkJson (tickers jd) (Some (default [] (symbolIndex jd)))
    (Some (default [] (nameIndex jd))).

(** ** Sample catalogs *)

Definition sample_tickers : list Ticker :=
  [ mkTicker 0 "TCS" "Tata Consultancy Services Limited";
    mkTicker 1 "RELIANCE" "Reliance Industries Limited" ].

Definition sample_catalog : JsonData :=
  mkJson (Some sample_tickers)
    (Some [("TCS", 0); ("RELIANCE", 1)])
    (Some [("tata consultancy services limited", [0]);
           ("reliance industries limited", [1])]).

(** The same tickers without the two index mappings. *)
Definition tickers_only_catalog : JsonData :=
  mkJson (Some sample_tickers) None None.

(** An index entry that points before the start of the ticker list. *)
Definition negative_id_catalog : JsonData :=
  mkJson (Some sample_tickers)
    (Some [("TCS", 0); ("RELIANCE", 1); ("ZZZ", -1)])
    (Some [("tata consultancy services limited", [0]);
           ("reliance industries limited", [1])]).

(** A second symbol entry for RELIANCE that points before the start of
    the ticker list. *)
Definition duplicate_entry_catalog : JsonData :=
  mkJson (Some sample_tickers)
    (Some [("TCS", 0); ("RELIANCE", 1); ("RELIANCE-BE", -1)])
    (Some [("tata consultancy services limited", [0]);
           ("reliance industries limited", [1])]).

(** The catalog that [create_search_json.py] builds from a list of
    (symbol, name) rows with distinct symbols and distinct names. *)
Definition build_catalog (rows : list (string * string)) : JsonData :=
  let tks := imap (λ i r, mkTicker (Z.of_nat i) (PyStr.upper r.1) r.2) rows in
  mkJson (Some tks)
    (Some ((λ t, (ticker_symbol t, ticker_id t)) <$> tks))
    (Some ((λ t, (PyStr.lower (ticker_name t), [ticker_id t])) <$> tks)).

(** Twenty-one banks: every name contains "bank", no symbol does. *)
Definition bank_catalog : JsonData :=
  build_catalog
    [ ("QA", "Bank A"); ("QB", "Bank B"); ("QC", "Bank C"); ("QD", "Bank D");
      ("QE", "Bank E"); ("QF", "Bank F"); ("QG", "Bank G"); ("QH", "Bank H");
      ("QI", "Bank I"); ("QJ", "Bank J"); ("QK", "Bank K"); ("QL", "Bank L");
      ("QM", "Bank M"); ("QN", "Bank N"); ("QO", "Bank O"); ("QP", "Bank P");
      ("QQ", "Bank Q"); ("QR", "Bank R"); ("QS", "Bank S"); ("QT", "Bank T");
      ("QU", "Bank U") ].

(** Twenty symbols that start with X, ids 0 to 19, and then the symbol X
    itself with id 20; no name contains an x. *)
Definition x_catalog : JsonData :=
  build_catalog
    [ ("XA", "Company A"); ("XB", "Company B"); ("XC", "Company C");
      ("XD", "Company D"); ("XE", "Company E"); ("XF", "Company F");
      ("XG", "Company G"); ("XH", "Company H"); ("XI", "Company I");
      ("XJ", "Company J"); ("XK", "Company K"); ("XL", "Company L");
      ("XM", "Company M"); ("XN", "Company N"); ("XO", "Company O");
      ("XP", "Company P"); ("XQ", "Company Q"); ("XR", "Company R");
      ("XS", "Company S"); ("XT", "Company T"); ("X", "Company U") ].

(** The tickers and the two (defaulted) indexes of a catalog. *)
Definition tickers_of (jd : JsonData) : list Ticker := default [] (tickers jd).
Definition symbol_index_of (jd : JsonData) : dict Z := default [] (symbolIndex jd).
Definition name_index_of (jd : JsonData) : dict (list Z) := default [] (nameIndex jd).

(** One call on freshly initialised globals, with the given file content. *)
Definition run {A} (c : M A) (file : option JsonData) : A :=
  fst (c (mkEnv file 0) initial_globals).

(** ** The catalog builder, [create_search_json.py] *)

(** One row of [nse_tickers.csv] as [csv.DictReader] yields it. *)
Record CsvRow := mkRow {
  row_symbol : string;
  row_name : string
}.

(** The [ticker_obj] dictionaries of the builder. *)
Record TickerObj := mkTickerObj {
  obj_id : Z;
  obj_symbol : string;
  obj_name : string;
  obj_searchTerm : string
}.

(** The [search_data] dictionary that is dumped to
    [nse_tickers_search.json]. *)
Record SearchData := mkSearchData {
  sd_total : Z;
  sd_tickers : list TickerObj;
  sd_symbolIndex : dict Z;
  sd_nameIndex : dict (list Z)
}.

(** [d[k] = v]: an existing key keeps its place, a new key goes last. *)
Fixpoint dict_set {V} (k : string) (v : V) (d : dict V) : dict V :=
  match d with
  | [] => [(k, v)]
  | (k', v') :: d' =>
      if String.eqb k k' then (k, v) :: d' else (k', v') :: dict_set k v d'
  end.

(** The [for row in reader] loop, started with the values the four loop
    variables have so far. *)
Fixpoint create_search_json_loop (rows : list CsvRow) (idx : Z)
    (tks : list TickerObj) (symbol_index : dict Z)
    (name_index : dict (list Z))
  : list TickerObj * dict Z * dict (list Z) :=
  match rows with
  | [] => (tks, symbol_index, name_index)
  | row :: rest =>
      let symbol := PyStr.upper (row_symbol row) in
      let name := row_name row in
      let ticker_obj :=
        mkTickerObj idx symbol name (PyStr.lower (symbol +:+ " " +:+ name)) in
      let tks := tks ++ [ticker_obj] in
      let symbol_index := dict_set symbol idx symbol_index in
      let name_lower := PyStr.lower name in
      let name_index :=
        match dict_get name_lower name_index with
        | None => dict_set name_lower [] name_index
        | Some _ => name_index
        end in
      let name_index :=
        dict_set name_lower (default [] (dict_get name_lower name_index) ++ [idx])
          name_index in
      create_search_json_loop rest (idx + 1) tks symbol_index name_index
  end.

(** The [search_data] built from the rows of the CSV file. *)
Definition build_search_data (rows : list CsvRow) : SearchData :=
  let '(tks, symbol_index, name_index) :=
    create_search_json_loop rows 0 [] [] [] in
  mkSearchData (Z.of_nat (length tks)) tks symbol_index name_index.

(** [create_search_json()]: the argument is the content of
    [nse_tickers.csv], [None] when the file does not exist; the result is
    the value returned and what the call writes to
    [nse_tickers_search.json], if anything. *)
Definition create_search_json (csv_file : option (list CsvRow))
  : bool * option SearchData :=
  match csv_file with
  | Some rows => (true, Some (build_search_data rows))
  | None => (false, None)
  end.

(** What [json.load] gives back for the dumped [search_data], seen through
    the keys that [services.py] reads. *)
Definition ticker_of_obj (o : TickerObj) : Ticker :=
  mkTicker (obj_id o) (obj_symbol o) (obj_name o).

Definition json_of_search_data (sd : SearchData) : JsonData :=
  mkJson (Some (ticker_of_obj <$> sd_tickers sd))
    (Some (sd_symbolIndex sd)) (Some (sd_nameIndex sd)).

(** ** The routes of [main.py] *)

Definition get_popular_stocks_cached : M (list Stock) := get_nse_indices.

(** The body of the [/stocks] response. *)
Record AllStocksResponse := mkAllStocks {
  resp_stocks : list Stock;
  resp_source : string;
  resp_total : Z
}.

Definition get_all_stocks : M AllStocksResponse :=
  stocks ← get_popular_stocks_cached;
  mret (mkAllStocks stocks "local JSON file" (Z.of_nat (length stocks))).

(** [/stocks/search]; the result is the list under the key ["stocks"]. *)
Definition search_stocks (query : string) : M (list Stock) :=
  let query_lower := PyStr.strip (PyStr.lower query) in
  match query_lower with
  | EmptyString => stocks ← get_popular_stocks_cached; mret (take 6 stocks)
  | _ => search_nse_stocks query
  end.

(** ** The price text of [fetch_google_finance_price] *)

Module PriceText.

(** [\d] on ASCII text *)
Definition is_digit (c : ascii) : bool :=
  let n := nat_of_ascii c in ((48 <=? n) && (n <=? 57))%nat.

(** the character class [[\d,]] *)
Definition is_price_char (c : ascii) : bool :=
  is_digit c || Ascii.eqb c ","%char.

(** The longest prefix of characters that satisfy [f], and the rest. *)
Fixpoint span (f : ascii → bool) (s : string) : string * string :=
  match s with
  | EmptyString => (EmptyString, EmptyString)
  | String c s' =>
      if f c then let '(run, rest) := span f s' in (String c run, rest)
      else (EmptyString, s)
  end.

(** The optional group [(?:\.\d{2})?] at the start of [s]. *)
Definition fraction (s : string) : string :=
  match s with
  | String dot (String a (String b _)) =>
      if Ascii.eqb dot "."%char && is_digit a && is_digit b
      then String dot (String a (String b EmptyString))
      else EmptyString
  | _ => EmptyString
  end.

(** [re.search(r"[\d,]+(?:\.\d{2})?", txt)]: the leftmost match, with the
    greedy run and the greedy optional group; [None] when nothing
    matches. *)
Fixpoint re_search (txt : string) : option string :=
  match txt with
  | EmptyString => None
  | String c rest =>
      if is_price_char c then
        let '(run, tail) := span is_price_char txt in
        Some (run +:+ fraction tail)
      else re_search rest
  end.

(** [s.replace(",", "")] *)
Fixpoint remove_commas (s : string) : string :=
  match s with
  | EmptyString => EmptyString
  | String c s' =>
      if Ascii.eqb c ","%char then remove_commas s'
      else String c (remove_commas s')
  end.

End PriceText.

(** [fetch_google_finance_price]: the argument is the text of the price
    element of the page, [None] when the request fails, the status is not
    200 or no selector finds an element. The result stands for the float
    returned: it is the decimal literal that [float] converts, and [None]
    where the function returns [None] (no match, or [float] raising on the
    empty literal). *)
Definition fetch_google_finance_price (element_text : option string)
  : option string :=
  match element_text with
  | None => None
  | Some txt =>
      match PriceText.re_search txt with
      | None => None
      | Some m =>
          let price_str := PriceText.remove_commas m in
          match price_str with
          | EmptyString => None
          | _ => Some price_str
          end
      end
  end.

(** ** Specification helpers for the builder *)

(** The positions, counted from [start], of the elements of [l] that
    satisfy [f], in ascending order. *)
Fixpoint positions_from {A} (f : A → bool) (start : Z) (l : list A) : list Z :=
  match l with
  | [] => []
  | a :: l' =>
      (if f a then [start] else []) ++ positions_from f (start + 1) l'
  end.

Definition has_symbol (symbol : string) (row : CsvRow) : bool :=
  String.eqb (PyStr.upper (row_symbol row)) symbol.

Definition has_name_lower (name_lower : string) (row : CsvRow) : bool :=
  String.eqb (PyStr.lower (row_name row)) name_lower.

(** The catalog that the service loads after the builder has run on
    [rows]. *)
Definition catalog_of_rows (rows : list CsvRow) : JsonData :=
  json_of_search_data (build_search_data rows).

(** ** Specification helpers for the tiers *)

(** An index entry that accounts for the id [i] in the accumulated set: the
    exact symbol entry of tier 1, a symbol entry whose lowercased key
    contains the query (tier 2), or a name entry whose key contains the
    query and whose id list holds [i] (tier 3). *)
Definition id_explained (query query_lower : string)
    (symbol_index : dict Z) (name_index : dict (list Z)) (i : Z) : Prop :=
  dict_get (PyStr.upper query) symbol_index = Some i
  ∨ (∃ symbol, (symbol, i) ∈ symbol_index
               ∧ PyStr.contains query_lower (PyStr.lower symbol) = true)
  ∨ (∃ name ids, (name, ids) ∈ name_index
                 ∧ PyStr.contains query_lower name = true ∧ i ∈ ids).

(** No id of the two indexes is negative. *)
Definition ids_nonneg (symbol_index : dict Z) (name_index : dict (list Z))
  : Prop :=
  (∀ symbol i, (symbol, i) ∈ symbol_index → 0 ≤ i)
  ∧ (∀ name ids i, (name, ids) ∈ name_index → i ∈ ids → 0 ≤ i).

(** Every character of [s] satisfies [f]. *)
Definition all_chars (f : ascii → bool) (s : string) : Prop :=
  Forall (λ c, f c = true) (list_ascii_of_string s).

(** No character of [s] satisfies [f]. *)
Definition no_chars (f : ascii → bool) (s : string) : Prop :=
  Forall (λ c, f c = false) (list_ascii_of_string s).

(** A decimal literal as [fetch_google_finance_price] hands it to [float]:
    digits, then nothing or a point and exactly two digits. *)
Definition price_literal (p : string) : Prop :=
  ∃ whole frac : string,
    p = whole +:+ frac
    ∧ all_chars PriceText.is_digit whole
    ∧ (frac = EmptyString
       ∨ ∃ a b, frac = String "."%char (String a (String b EmptyString))
                ∧ PriceText.is_digit a = true ∧ PriceText.is_digit b = true).

(** The [ticker_obj] that the builder makes of the row at position [i]. *)
Definition ticker_obj_of (i : Z) (row : CsvRow) : TickerObj :=
  let symbol := PyStr.upper (row_symbol row) in
  mkTickerObj i symbol (row_name row)
    (PyStr.lower (symbol +:+ " " +:+ row_name row)).

(** What a lookup gives for a key whose id list is [l]: no entry for the
    empty list. *)
Definition nonempty {A} (l : list A) : option (list A) :=
  match l with
  | [] => None
  | _ => Some l
  end.

(** Every index entry points into the ticker list, at a ticker that
    carries the key: the symbol for a symbol entry, the lowercased name for
    a name entry. *)
Definition catalog_consistent (tks : list Ticker)
    (symbol_index : dict Z) (name_index : dict (list Z)) : Prop :=
  (∀ symbol i, (symbol, i) ∈ symbol_index →
     0 ≤ i ∧ ∃ t, tks !! Z.to_nat i = Some t ∧ ticker_symbol t = symbol)
  ∧ (∀ name ids i, (name, ids) ∈ name_index → i ∈ ids →
       0 ≤ i ∧ ∃ t, tks !! Z.to_nat i = Some t
                    ∧ PyStr.lower (ticker_name t) = name).

(** Every ticker is indexed at its position, under its symbol and under
    its lowercased name. *)
Definition catalog_complete (tks : list Ticker)
    (symbol_index : dict Z) (name_index : dict (list Z)) : Prop :=
  (∀ i t, tks !! i = Some t → (ticker_symbol t, Z.of_nat i) ∈ symbol_index)
  ∧ (∀ i t, tks !! i = Some t →
       ∃ ids, (PyStr.lower (ticker_name t), ids) ∈ name_index
              ∧ Z.of_nat i ∈ ids).

(** The match test of the linear scan on a ticker. *)
Definition ticker_matches (query_lower : string) (t : Ticker) : bool :=
  stock_matches query_lower (stock_of t).

(** The values of the four loop variables of the builder once the rows
    [seen] have been processed. *)
Definition loop_state (seen : list CsvRow) (idx : Z) (tks : list TickerObj)
    (symbol_index : dict Z) (name_index : dict (list Z)) : Prop :=
  idx = Z.of_nat (length seen)
  ∧ tks = imap (λ i row, ticker_obj_of (Z.of_nat i) row) seen
  ∧ (∀ s, dict_get s symbol_index = last (positions_from (has_symbol s) 0 seen))
  ∧ (∀ n, dict_get n name_index
          = nonempty (positions_from (has_name_lower n) 0 seen))
  ∧ NoDup symbol_index.*1 ∧ NoDup name_index.*1.

(** The rows that give [sample_catalog]. *)
Definition sample_rows : list CsvRow :=
  [ mkRow "tcs" "Tata Consultancy Services Limited";
    mkRow "Reliance" "Reliance Industries Limited" ].

(** No two rows have the same symbol once uppercased. *)
Definition distinct_symbols (rows : list CsvRow) : Prop :=
  NoDup ((λ row, PyStr.upper (row_symbol row)) <$> rows).

(** ** Proof automation *)

(** Unfolds the monad of the service functions. *)
Ltac unfold_M :=
  unfold mbind, M_bind, mret, M_ret, read_globals, write_json_data,
    write_cache, open_json_file, time_time in *.

(** A decidable proposition that evaluates to false does not hold. *)
Ltac refute_by_computation :=
  let H := fresh in
  intros H; apply (bool_decide_pack _) in H; vm_compute in H; exact H.

(** * Properties *)

(** ** The scenarios of the specification *)

Example lower_demo : PyStr.lower " Tcs-9 " = " tcs-9 ".
Proof. reflexivity. Qed.
Example upper_demo : PyStr.upper " Tcs-9 " = " TCS-9 ".
Proof. reflexivity. Qed.
Example strip_demo : PyStr.strip "  a b  " = "a b".
Proof. reflexivity. Qed.
Example contains_demo :
  PyStr.contains "ata" "tata" = true /\ PyStr.contains "tat" "atta" = false
  /\ PyStr.contains "" "" = true.
Proof. repeat split. Qed.

Example scenario_tcs :
  run (search_nse_stocks "tcs") (Some sample_catalog)
  = [mkStock "TCS" "Tata Consultancy Services Limited"].
Proof. vm_compute. reflexivity. Qed.
Example scenario_reliance :
  run (search_nse_stocks "reliance") (Some sample_catalog)
  = [mkStock "RELIANCE" "Reliance Industries Limited"].
Proof. vm_compute. reflexivity. Qed.
Example scenario_xyz : run (search_nse_stocks "xyz") (Some sample_catalog) = [].
Proof. vm_compute. reflexivity. Qed.
Example scenario_linear :
  _search_in_list "tata" (stock_of <$> sample_tickers)
  = [mkStock "TCS" "Tata Consultancy Services Limited"].
Proof. vm_compute. reflexivity. Qed.

(** ** Strings *)

Section strings.
Import PyStr.

Lemma append_cons (c : ascii) (p s : string) :
  String c p +:+ s = String c (p +:+ s).
Proof. reflexivity. Qed.

Lemma append_nil (s : string) : EmptyString +:+ s = s.
Proof. reflexivity. Qed.

Lemma startswith_spec (p s : string) :
  startswith p s = true ↔ ∃ post, s = p +:+ post.
Proof.
  revert s. induction p as [|a p IH]; intros s; simpl.
  - split; [intros _; by exists s | done].
  - destruct s as [|b s]; simpl.
    + split; [done | by intros [post ?]].
    + destruct (Ascii.eqb_spec a b) as [->|Hne].
      * rewrite IH. split; intros [post Hpost]; exists post;
          rewrite append_cons in *; congruence.
      * split; [done | intros [post Hpost]; rewrite append_cons in Hpost; congruence].
Qed.

Lemma contains_unfold (needle hay : string) :
  contains needle hay
  = startswith needle hay
    || match hay with EmptyString => false | String _ h => contains needle h end.
Proof. by destruct hay. Qed.

(** The [in] test on strings holds exactly when the needle occurs in the
    haystack. *)
Lemma contains_spec (needle hay : string) :
  contains needle hay = true ↔ is_substring needle hay.
Proof.
  unfold is_substring. split.
  - induction hay as [|c hay IH]; rewrite contains_unfold, orb_true_iff.
    + intros [H|?]; [|done]. apply startswith_spec in H as [post ->].
      by exists EmptyString, post.
    + intros [H|H].
      * apply startswith_spec in H as [post ->]. by exists EmptyString, post.
      * destruct (IH H) as (pre & post & ->). by exists (String c pre), post.
  - intros (pre & post & ->). induction pre as [|c pre IH].
    + rewrite append_nil, contains_unfold, orb_true_iff. left.
      apply startswith_spec. by exists post.
    + rewrite append_cons, contains_unfold, IH. apply orb_true_r.
Qed.

Lemma contains_empty (hay : string) : contains EmptyString hay = true.
Proof. by destruct hay. Qed.

Lemma lstrip_cases (s : string) :
  lstrip s = EmptyString
  ∨ ∃ c r, lstrip s = String c r ∧ is_space c = false.
Proof.
  induction s as [|c s IH]; simpl; [by left|].
  destruct (is_space c) eqn:Hc; [done|]. right. by exists c, s.
Qed.

Lemma rstrip_nonspace (c : ascii) (r : string) :
  is_space c = false → rstrip (String c r) ≠ EmptyString.
Proof. intros Hc. simpl. rewrite Hc. by destruct (rstrip r). Qed.

Lemma strip_empty_lstrip (s : string) :
  strip s = EmptyString ↔ lstrip s = EmptyString.
Proof.
  unfold strip. destruct (lstrip_cases s) as [->|(c & r & -> & Hc)]; [done|].
  split; [|done]. intros H. by apply rstrip_nonspace in H.
Qed.

(** A string strips to the empty string exactly when all its characters
    are white space. *)
Lemma strip_empty_iff (s : string) :
  strip s = EmptyString
  ↔ Forall (λ c, is_space c = true) (list_ascii_of_string s).
Proof.
  rewrite strip_empty_lstrip. induction s as [|c s IH]; simpl.
  - split; [constructor | done].
  - destruct (is_space c) eqn:Hc.
    + rewrite IH. split; [by constructor | by inversion 1].
    + split; [done | inversion 1; congruence].
Qed.

Lemma empty_query_strip (query : string) :
  empty_query query = true ↔ strip query = EmptyString.
Proof.
  unfold empty_query. destruct query as [|c q]; [done|].
  unfold len. destruct (strip (String c q)) as [|c' r]; simpl; [done|].
  split; [|done]. intros H. apply Z.ltb_lt in H. lia.
Qed.

End strings.

(** ** The linear scan *)

Section linear_scan.
Variable query_lower : string.

Let matching : Stock → Prop := λ s, stock_matches query_lower s.

(** The loop with [results] already collected appends the next matches
    until the list holds ten stocks. *)
Lemma _search_in_list_loop_spec (nse_stocks results : list Stock) :
  (length results < 10)%nat →
  _search_in_list_loop query_lower nse_stocks results
  = results ++ take (10 - length results) (filter matching nse_stocks).
Proof.
  revert results. induction nse_stocks as [|stock rest IH]; intros results Hlen.
  - cbn [_search_in_list_loop]. by rewrite filter_nil, take_nil, app_nil_r.
  - cbn [_search_in_list_loop].
    destruct (stock_matches query_lower stock) eqn:Hm.
    + rewrite filter_cons_True by (unfold matching; by rewrite Hm).
      destruct (10 <=? length (results ++ [stock]))%nat eqn:Hfull.
      * apply Nat.leb_le in Hfull. rewrite length_app in Hfull. simpl in Hfull.
        replace (10 - length results)%nat with 1%nat by lia.
        simpl. by rewrite take_0.
      * apply Nat.leb_gt in Hfull. rewrite IH by done.
        rewrite length_app in *. simpl in *.
        replace (10 - length results)%nat
          with (S (10 - (length results + 1)))%nat by lia.
        simpl. by rewrite <- app_assoc.
    + rewrite filter_cons_False by (unfold matching; rewrite Hm; auto). by apply IH.
Qed.

Lemma _search_in_list_spec (nse_stocks : list Stock) :
  _search_in_list query_lower nse_stocks = take 10 (filter matching nse_stocks).
Proof.
  destruct nse_stocks as [|stock rest]; [done|].
  unfold _search_in_list. rewrite _search_in_list_loop_spec by (simpl; lia).
  done.
Qed.

Lemma _search_in_list_length (nse_stocks : list Stock) :
  (length (_search_in_list query_lower nse_stocks) ≤ 10)%nat.
Proof. rewrite _search_in_list_spec, length_take. lia. Qed.

Lemma _search_in_list_sublist (nse_stocks : list Stock) :
  _search_in_list query_lower nse_stocks `sublist_of` nse_stocks.
Proof.
  rewrite _search_in_list_spec.
  etrans; [apply sublist_take | apply sublist_filter].
Qed.

(** Once a prefix of the list holds ten matches, what follows it is never
    looked at. *)
Lemma _search_in_list_early_exit (scanned unscanned : list Stock) :
  (10 ≤ length (filter matching scanned))%nat →
  _search_in_list query_lower (scanned ++ unscanned)
  = _search_in_list query_lower scanned.
Proof.
  intros H. rewrite !_search_in_list_spec, filter_app. by apply take_app_le.
Qed.

Lemma stock_matches_spec (stock : Stock) :
  stock_matches query_lower stock = true
  ↔ is_substring query_lower (PyStr.lower (stock_symbol stock))
    ∨ is_substring query_lower (PyStr.lower (stock_name stock)).
Proof.
  unfold stock_matches. by rewrite orb_true_iff, !contains_spec.
Qed.

End linear_scan.

(** The empty string occurs in every string, so every stock matches it. *)
Lemma _search_in_list_empty_query (nse_stocks : list Stock) :
  _search_in_list EmptyString nse_stocks = take 10 nse_stocks.
Proof.
  rewrite _search_in_list_spec. f_equal.
  induction nse_stocks as [|s l IH]; [done|].
  rewrite filter_cons_True, IH; [done|].
  unfold stock_matches. by rewrite contains_empty.
Qed.

(** ** The three tiers *)

Section tiers.
Implicit Types (results_set : gset Z) (ticker_id : Z).

Lemma size_add ticker_id results_set :
  (size ({[ticker_id]} ∪ results_set) ≤ S (size results_set))%nat.
Proof.
  rewrite size_union_alt, size_singleton.
  apply le_n_S, subseteq_size, subseteq_difference_l. done.
Qed.

Lemma tier1_size query tks symbol_index :
  (size (tier1 query tks symbol_index ∅) ≤ 1)%nat.
Proof.
  unfold tier1. destruct (dict_get _ _) as [i|]; [|rewrite size_empty; lia].
  destruct (i <? _); [|rewrite size_empty; lia].
  etrans; [apply size_add|]. by rewrite size_empty.
Qed.

(** Tier 2 honours the cap: entered below twenty ids, it ends with at
    most twenty. *)
Lemma tier2_size query_lower symbol_index results_set :
  (size results_set < 20)%nat →
  (size (tier2 query_lower symbol_index results_set) ≤ 20)%nat.
Proof.
  revert results_set.
  induction symbol_index as [|[symbol i] rest IH]; intros rs Hrs; cbn [tier2].
  - lia.
  - destruct (PyStr.contains _ _); [|by apply IH].
    pose proof (size_add i rs).
    destruct (Nat.leb 20 (size ({[i]} ∪ rs))) eqn:Hcap.
    + lia.
    + apply Nat.leb_gt in Hcap. by apply IH.
Qed.

Lemma tier2_mono query_lower symbol_index results_set :
  results_set ⊆ tier2 query_lower symbol_index results_set.
Proof.
  revert results_set.
  induction symbol_index as [|[symbol i] rest IH]; intros rs; cbn [tier2]; [done|].
  destruct (PyStr.contains _ _); [|done].
  destruct (Nat.leb 20 _); [set_solver|].
  etrans; [|apply IH]. set_solver.
Qed.

Lemma tier3_ids_mono ticker_ids results_set :
  results_set ⊆ tier3_ids ticker_ids results_set.
Proof.
  revert results_set.
  induction ticker_ids as [|i rest IH]; intros rs; cbn [tier3_ids]; [done|].
  destruct (Nat.leb 20 _); [set_solver|].
  etrans; [|apply IH]. set_solver.
Qed.

Lemma tier3_mono query_lower name_index results_set :
  results_set ⊆ tier3 query_lower name_index results_set.
Proof.
  revert results_set.
  induction name_index as [|[name ids] rest IH]; intros rs; cbn [tier3]; [done|].
  destruct (PyStr.contains _ _); [|done].
  etrans; [apply tier3_ids_mono | apply IH].
Qed.

(** What tier 1 adds stays in the accumulated set: tiers 2 and 3 only
    add. This is about the key [query.upper()], which is not trimmed. *)
Lemma tier1_accumulated query query_lower tks symbol_index name_index ticker_id :
  dict_get (PyStr.upper query) symbol_index = Some ticker_id →
  ticker_id < Z.of_nat (length tks) →
  ticker_id ∈ accumulate query query_lower tks symbol_index name_index.
Proof.
  intros Hkey Hlt. unfold accumulate.
  apply tier3_mono, tier2_mono. unfold tier1. rewrite Hkey.
  apply Z.ltb_lt in Hlt. rewrite Hlt. set_solver.
Qed.

Lemma accumulate_no_index query query_lower tks :
  accumulate query query_lower tks [] [] = ∅.
Proof. done. Qed.

End tiers.

(** ** Finalization *)

Section finalization.
Implicit Types (results_set : gset Z) (tks : list Ticker).

Lemma sorted_elem_of results_set i : i ∈ sorted results_set ↔ i ∈ results_set.
Proof.
  unfold sorted. by rewrite merge_sort_Permutation, elem_of_elements.
Qed.

Lemma sorted_NoDup results_set : NoDup (sorted results_set).
Proof.
  unfold sorted. rewrite merge_sort_Permutation. apply NoDup_elements.
Qed.

Lemma sorted_le results_set : StronglySorted Z.le (sorted results_set).
Proof. apply StronglySorted_merge_sort; apply _. Qed.

Lemma StronglySorted_le_lt (l : list Z) :
  StronglySorted Z.le l → NoDup l → StronglySorted Z.lt l.
Proof.
  induction 1 as [|x l Hl IH Hx]; intros Hnd; [constructor|].
  apply NoDup_cons in Hnd as [Hnotin Hnd].
  constructor; [by apply IH|].
  rewrite Forall_forall in Hx |- *. intros y Hy.
  pose proof (Hx y Hy). assert (x ≠ y) by (intros ->; done). lia.
Qed.

(** [sorted] lists a set in strictly ascending order. *)
Lemma sorted_lt results_set : StronglySorted Z.lt (sorted results_set).
Proof. apply StronglySorted_le_lt; [apply sorted_le | apply sorted_NoDup]. Qed.

Lemma StronglySorted_sublist {A} (R : relation A) (l k : list A) :
  l `sublist_of` k → StronglySorted R k → StronglySorted R l.
Proof.
  induction 1 as [|x l k Hs IH|x l k Hs IH]; intros Hk; [done|..].
  - apply StronglySorted_inv in Hk as [Hk Hx].
    constructor; [by apply IH|].
    rewrite Forall_forall in Hx |- *. intros y Hy. apply Hx.
    by eapply elem_of_sublist.
  - apply StronglySorted_inv in Hk as [Hk _]. by apply IH.
Qed.

Lemma kept_ids_sublist tks results_set :
  kept_ids tks results_set `sublist_of` sorted results_set.
Proof. unfold kept_ids. etrans; [apply sublist_take | apply sublist_filter]. Qed.

Lemma kept_ids_lt tks results_set :
  StronglySorted Z.lt (kept_ids tks results_set).
Proof.
  eapply StronglySorted_sublist; [apply kept_ids_sublist | apply sorted_lt].
Qed.

Lemma kept_ids_NoDup tks results_set : NoDup (kept_ids tks results_set).
Proof.
  eapply sublist_NoDup; [apply sorted_NoDup | apply kept_ids_sublist].
Qed.

Lemma kept_ids_length tks results_set :
  (length (kept_ids tks results_set) ≤ 10)%nat.
Proof. unfold kept_ids. rewrite length_take. lia. Qed.

Lemma kept_ids_elem_of tks results_set i :
  i ∈ kept_ids tks results_set →
  i ∈ results_set ∧ i < Z.of_nat (length tks).
Proof.
  unfold kept_ids. intros Hi.
  eapply elem_of_sublist in Hi; [|apply sublist_take].
  apply list_elem_of_filter in Hi as [Hlt Hi].
  by rewrite sorted_elem_of in Hi.
Qed.

End finalization.

(** ** Subscripting and the result-building loop *)

Section build.
Variable tks : list Ticker.

Let n : Z := Z.of_nat (length tks).

Lemma py_getitem_nonneg (i : Z) :
  0 ≤ i < n → py_getitem tks i = from_option Return (Raise IndexError) (tks !! Z.to_nat i).
Proof.
  intros Hi. unfold py_getitem. fold n.
  rewrite (proj2 (Z.ltb_ge i 0)) by lia.
  rewrite (proj2 (Z.ltb_ge i 0)), (proj2 (Z.leb_gt n i)) by lia. simpl.
  by destruct (tks !! Z.to_nat i).
Qed.

Lemma py_getitem_negative (i : Z) :
  - n ≤ i < 0 →
  py_getitem tks i
  = from_option Return (Raise IndexError) (tks !! Z.to_nat (i + n)).
Proof.
  intros Hi. unfold py_getitem. fold n.
  rewrite (proj2 (Z.ltb_lt i 0)) by lia.
  rewrite (proj2 (Z.ltb_ge (i + n) 0)), (proj2 (Z.leb_gt n (i + n))) by lia.
  simpl. by destruct (tks !! Z.to_nat (i + n)).
Qed.

Lemma py_getitem_Return (i : Z) :
  - n ≤ i < n → ∃ t, py_getitem tks i = Return t.
Proof.
  intros Hi. destruct (decide (0 ≤ i)).
  - rewrite py_getitem_nonneg by lia.
    destruct (lookup_lt_is_Some_2 tks (Z.to_nat i)) as [t ->]; [subst n; lia|].
    by exists t.
  - rewrite py_getitem_negative by lia.
    destruct (lookup_lt_is_Some_2 tks (Z.to_nat (i + n))) as [t ->];
      [subst n; lia|].
    by exists t.
Qed.

Lemma py_getitem_Raise (i : Z) :
  i < - n ∨ n ≤ i → py_getitem tks i = Raise IndexError.
Proof.
  intros Hi. unfold py_getitem. fold n.
  destruct (Z.ltb_spec i 0).
  - rewrite (proj2 (Z.ltb_lt (i + n) 0)) by lia. done.
  - rewrite (proj2 (Z.ltb_ge i 0)), (proj2 (Z.leb_le n i)) by lia. done.
Qed.

(** The loop returns when no id lies below [-len(tickers)]: it keeps the
    ids that pass the guard, in the order given, and skips the others. *)
Lemma build_results_Return (ids : list Z) (results : list Stock) :
  (∀ i, i ∈ ids → - n ≤ i) →
  ∃ stocks,
    build_results tks ids results = Return (results ++ stocks)
    ∧ Forall2 (stock_at tks) (filter (λ i, i < n) ids) stocks.
Proof.
  revert results. induction ids as [|i ids IH]; intros results Hids.
  - exists []. by rewrite app_nil_r.
  - cbn [build_results]. fold n.
    assert (- n ≤ i) by (apply Hids; left).
    assert (∀ j, j ∈ ids → - n ≤ j) as Hrest by (intros; apply Hids; by right).
    destruct (Z.ltb_spec i n) as [Hlt|Hge].
    + destruct (py_getitem_Return i) as [t Ht]; [lia|]. rewrite Ht.
      destruct (IH (results ++ [stock_of t]) Hrest) as (stocks & -> & HF).
      exists (stock_of t :: stocks). split; [by rewrite <- app_assoc|].
      rewrite filter_cons_True by done. constructor; [|done]. by exists t.
    + destruct (IH results Hrest) as (stocks & -> & HF).
      exists stocks. split; [done|]. rewrite filter_cons_False by lia. done.
Qed.

(** An id below [-len(tickers)] passes the guard and makes the subscript
    raise, wherever it stands in the list. *)
Lemma build_results_Raise (ids : list Z) (results : list Stock) :
  (∃ i, i ∈ ids ∧ i < - n) →
  build_results tks ids results = Raise IndexError.
Proof.
  revert results. induction ids as [|i ids IH]; intros results (j & Hj & Hlow).
  - by apply elem_of_nil in Hj.
  - cbn [build_results]. fold n.
    destruct (decide (i < - n)) as [Hi|Hi].
    + rewrite (proj2 (Z.ltb_lt i n)) by lia.
      by rewrite py_getitem_Raise by lia.
    + apply elem_of_cons in Hj as [->|Hj]; [done|].
      destruct (Z.ltb_spec i n).
      * destruct (py_getitem_Return i) as [t ->]; [lia|]. apply IH. eauto.
      * apply IH. eauto.
Qed.

Section indexed.
Variables (query query_lower : string).
Variables (symbol_index : dict Z) (name_index : dict (list Z)).

Let results_set : gset Z :=
  accumulate query query_lower tks symbol_index name_index.

Lemma indexed_search_Return :
  (∀ i, i ∈ results_set → - n ≤ i) →
  ∃ results,
    indexed_search query query_lower tks symbol_index name_index
    = Return results
    ∧ Forall2 (stock_at tks) (kept_ids tks results_set) results.
Proof.
  intros Hids. unfold indexed_search. fold results_set.
  destruct (build_results_Return (sorted results_set) []) as (stocks & -> & HF).
  { intros i Hi. apply Hids. by apply sorted_elem_of. }
  exists (take 10 stocks). split; [done|].
  unfold kept_ids. by apply Forall2_take.
Qed.

Lemma indexed_search_Raise :
  (∃ i, i ∈ results_set ∧ i < - n) →
  indexed_search query query_lower tks symbol_index name_index
  = Raise IndexError.
Proof.
  intros (i & Hi & Hlow). unfold indexed_search. fold results_set.
  rewrite build_results_Raise; [done|].
  exists i. by rewrite sorted_elem_of.
Qed.

Lemma indexed_search_length (results : list Stock) :
  indexed_search query query_lower tks symbol_index name_index
  = Return results →
  (length results ≤ 10)%nat.
Proof.
  unfold indexed_search. destruct (build_results _ _ _); [|done].
  intros [= <-]. rewrite length_take. lia.
Qed.

End indexed.

End build.

(** ** The globals *)

Section globals.
Implicit Types (env : Env) (g : Globals).

(** The document the loader hands out: the cached one, else the file. *)
Lemma load_nse_json_data_fst env g :
  fst (load_nse_json_data env g)
  = match _json_data g with Some jd => Some jd | None => env_file env end.
Proof.
  unfold load_nse_json_data. unfold_M. cbn.
  destruct (_json_data g); [done|]. by destruct (env_file env).
Qed.

Lemma load_nse_json_data_snd env g :
  snd (load_nse_json_data env g)
  = mkGlobals (fst (load_nse_json_data env g))
      (_nse_stocks_cache g) (_cache_timestamp g).
Proof.
  unfold load_nse_json_data. unfold_M. cbn.
  destruct g as [[jd|] c t]; cbn; [done|]. by destruct (env_file env).
Qed.

(** Loading twice in one call gives the same document. *)
Lemma load_nse_json_data_again env g :
  fst (load_nse_json_data env (snd (load_nse_json_data env g)))
  = fst (load_nse_json_data env g).
Proof.
  rewrite load_nse_json_data_snd, !load_nse_json_data_fst. cbn.
  destruct (_json_data g); [done|]. by destruct (env_file env).
Qed.

Lemma initial_globals_wf : globals_wf initial_globals.
Proof. intros cached [=]. Qed.

Lemma load_nse_json_data_wf env g :
  globals_wf g → globals_wf (snd (load_nse_json_data env g)).
Proof.
  intros Hwf cached. rewrite load_nse_json_data_snd, load_nse_json_data_fst.
  cbn. intros Hc. destruct (Hwf _ Hc) as (jd & tks & -> & ? & ?). eauto.
Qed.

(** With well-formed globals the equity list is the projection of the
    loaded ticker list, fresh cache or not, and the default set when no
    ticker list can be loaded. *)
Lemma fetch_nse_equity_list_fst env g :
  globals_wf g →
  fst (fetch_nse_equity_list env g)
  = match fst (load_nse_json_data env g) ≫= tickers with
    | Some tks => stock_of <$> tks
    | None => get_fallback_stocks
    end.
Proof.
  intros Hwf. unfold fetch_nse_equity_list. unfold_M. cbn.
  destruct (fresh_cache g (env_time env)) as [cached|] eqn:Hfresh.
  - cbn. unfold fresh_cache in Hfresh.
    destruct (_nse_stocks_cache g) as [c|] eqn:Hc; [|done].
    destruct (_cache_timestamp g); [|done].
    destruct (_ <? _); [|done]. injection Hfresh as ->.
    destruct (Hwf _ Hc) as (jd & tks & Hjd & Htks & ->).
    rewrite load_nse_json_data_fst, Hjd. cbn. by rewrite Htks.
  - destruct (load_nse_json_data env g) as [[jd|] g1]; cbn; [|done].
    by destruct (tickers jd).
Qed.

Lemma fetch_nse_equity_list_wf env g :
  globals_wf g → globals_wf (snd (fetch_nse_equity_list env g)).
Proof.
  intros Hwf. unfold fetch_nse_equity_list. unfold_M. cbn.
  destruct (fresh_cache g (env_time env)); [done|].
  pose proof (load_nse_json_data_wf env g Hwf) as Hwf1.
  pose proof (load_nse_json_data_snd env g) as Hsnd.
  destruct (load_nse_json_data env g) as [json_data g1]. cbn in *.
  destruct json_data as [jd|]; cbn; [|done].
  destruct (tickers jd) as [tks|] eqn:Htks; cbn; [|done].
  intros cached [= <-]. exists jd, tks. by rewrite Hsnd.
Qed.

Lemma get_nse_indices_wf env g :
  globals_wf g → globals_wf (snd (get_nse_indices env g)).
Proof.
  intros Hwf. unfold get_nse_indices. unfold_M.
  pose proof (fetch_nse_equity_list_wf env g Hwf).
  destruct (fetch_nse_equity_list env g) as [[|s l] g1]; done.
Qed.

(** What [search_nse_stocks] returns, branch by branch. *)
Lemma search_nse_stocks_fst query env g :
  globals_wf g →
  fst (search_nse_stocks query env g)
  = if empty_query query then []
    else
      let query_lower := PyStr.strip (PyStr.lower query) in
      match fst (load_nse_json_data env g) with
      | Some jd =>
          match tickers jd with
          | Some tks =>
              match indexed_search query query_lower tks
                      (symbol_index_of jd) (name_index_of jd) with
              | Return results => results
              | Raise _ => _search_in_list query_lower (stock_of <$> tks)
              end
          | None => _search_in_list query_lower get_fallback_stocks
          end
      | None => _search_in_list query_lower get_fallback_stocks
      end.
Proof.
  intros Hwf. unfold search_nse_stocks.
  destruct (empty_query query); [done|]. unfold_M.
  pose proof (load_nse_json_data_wf env g Hwf) as Hwf1.
  pose proof (load_nse_json_data_again env g) as Hagain.
  destruct (load_nse_json_data env g) as [json_data g1].
  cbn [fst snd] in *.
  pose proof (fetch_nse_equity_list_fst env g1 Hwf1) as Hfetch.
  rewrite Hagain in Hfetch.
  destruct json_data as [jd|]; cbn [mbind option_bind] in *.
  - destruct (tickers jd) as [tks|].
    + fold (symbol_index_of jd) (name_index_of jd).
      destruct (indexed_search _ _ _ _ _); [done|].
      destruct (fetch_nse_equity_list env g1) as [l g2].
      cbn [fst] in *. by rewrite Hfetch.
    + destruct (fetch_nse_equity_list env g1) as [l g2].
      cbn [fst] in *. by rewrite Hfetch.
  - destruct (fetch_nse_equity_list env g1) as [l g2].
    cbn [fst] in *. by rewrite Hfetch.
Qed.

Lemma search_nse_stocks_wf query env g :
  globals_wf g → globals_wf (snd (search_nse_stocks query env g)).
Proof.
  intros Hwf. unfold search_nse_stocks.
  destruct (empty_query query); [done|]. unfold_M.
  pose proof (load_nse_json_data_wf env g Hwf) as Hwf1.
  destruct (load_nse_json_data env g) as [json_data g1]. cbn [snd] in *.
  pose proof (fetch_nse_equity_list_wf env g1 Hwf1) as Hwf2.
  destruct json_data as [jd|]; cbn [mbind option_bind].
  - destruct (tickers jd) as [tks|].
    + destruct (indexed_search _ _ _ _ _); [done|].
      by destruct (fetch_nse_equity_list env g1).
    + by destruct (fetch_nse_equity_list env g1).
  - by destruct (fetch_nse_equity_list env g1).
Qed.

(** Every state the service can be in has well-formed globals. *)
Lemma reachable_wf g : reachable g → globals_wf g.
Proof.
  induction 1;
    eauto using initial_globals_wf, load_nse_json_data_wf,
      fetch_nse_equity_list_wf, search_nse_stocks_wf, get_nse_indices_wf.
Qed.

Lemma search_nse_stocks_length query env g :
  globals_wf g → (length (fst (search_nse_stocks query env g)) ≤ 10)%nat.
Proof.
  intros Hwf. rewrite search_nse_stocks_fst by done.
  destruct (empty_query query); [cbn [length]; lia|]. cbn zeta.
  destruct (fst (load_nse_json_data env g)) as [jd|];
    [|apply _search_in_list_length].
  destruct (tickers jd) as [tks|]; [|apply _search_in_list_length].
  destruct (indexed_search _ _ _ _ _) eqn:Hsearch;
    [|apply _search_in_list_length].
  by eapply indexed_search_length.
Qed.

End globals.

(** ** The indexed search (claims C1, C2, C3, C8, C10) *)

Lemma stock_at_nonneg (tks : list Ticker) (i : Z) (s : Stock) :
  in_range tks i →
  stock_at tks i s ↔ ∃ t, tks !! Z.to_nat i = Some t ∧ s = stock_of t.
Proof.
  intros Hi. unfold stock_at. rewrite py_getitem_nonneg by done.
  destruct (tks !! Z.to_nat i) as [t'|]; simpl.
  - split; intros (t & [= ->] & ->); eauto.
  - split; intros (t & [=] & _).
Qed.

(** What finalization does achieve, for a non-empty query and a loaded
    catalog with a ticker list: at most ten [{symbol, name}] entries come
    back; the subscripts they are built from are the accumulated id set
    sorted ascending, cut down to the ids that pass the guard and then to
    the first ten, so the subscripts are strictly ascending and free of
    duplicates; each returned entry is the symbol and name of the ticker
    its id subscripts, which is the ticker with that id only when no
    accumulated id is negative. An accumulated id below [-len(tickers)]
    makes the subscript raise, and the linear scan over the same tickers
    answers, again with at most ten entries. *)
Theorem indexed_search_sorted_bounded
    (query : string) (env : Env) (g : Globals)
    (jd : JsonData) (tks : list Ticker) :
  globals_wf g →
  empty_query query = false →
  fst (load_nse_json_data env g) = Some jd →
  tickers jd = Some tks →
  let query_lower := PyStr.strip (PyStr.lower query) in
  let results_set :=
    accumulate query query_lower tks (symbol_index_of jd) (name_index_of jd) in
  let ids := kept_ids tks results_set in
  let results := fst (search_nse_stocks query env g) in
  (length results ≤ 10)%nat
  ∧ StronglySorted Z.lt (sorted results_set)
  ∧ (∀ i, i ∈ sorted results_set ↔ i ∈ results_set)
  ∧ ids = take 10 (filter (λ i, i < Z.of_nat (length tks)) (sorted results_set))
  ∧ StronglySorted Z.lt ids ∧ NoDup ids
  ∧ ((∀ i, i ∈ results_set → - Z.of_nat (length tks) ≤ i) →
       Forall2 (stock_at tks) ids results)
  ∧ ((∀ i, i ∈ results_set → 0 ≤ i) →
       ∃ kept : list Ticker,
         results = stock_of <$> kept
         ∧ Forall2 (λ i t, tks !! Z.to_nat i = Some t) ids kept)
  ∧ ((∃ i, i ∈ results_set ∧ i < - Z.of_nat (length tks)) →
       results = _search_in_list query_lower (stock_of <$> tks)).
Proof.
  intros Hwf Hq Hload Htks query_lower results_set ids results.
  assert (results
          = match indexed_search query query_lower tks
                    (symbol_index_of jd) (name_index_of jd) with
            | Return r => r
            | Raise _ => _search_in_list query_lower (stock_of <$> tks)
            end) as Hres.
  { subst results. rewrite search_nse_stocks_fst by done.
    by rewrite Hq, Hload, Htks. }
  assert ((∀ i, i ∈ results_set → - Z.of_nat (length tks) ≤ i) →
          Forall2 (stock_at tks) ids results) as Hmain.
  { intros Hids.
    destruct (indexed_search_Return tks query query_lower
                (symbol_index_of jd) (name_index_of jd) Hids)
      as (r & Hr & HF).
    by rewrite Hres, Hr. }
  split; [by apply search_nse_stocks_length|].
  split; [apply sorted_lt|]. split; [apply sorted_elem_of|].
  split; [done|]. split; [apply kept_ids_lt|]. split; [apply kept_ids_NoDup|].
  split; [done|]. split.
  - intros Hpos.
    assert (Forall2 (stock_at tks) ids results) as HF.
    { apply Hmain. intros i Hi. specialize (Hpos i Hi). lia. }
    assert (Forall (in_range tks) ids) as Hrange.
    { apply Forall_forall. intros i Hi.
      apply kept_ids_elem_of in Hi as [Hi Hlt]. split; [by apply Hpos | done]. }
    clear -HF Hrange. induction HF as [|i s ids results Hs HF IH].
    + by exists [].
    + apply Forall_cons in Hrange as [Hi Hrange].
      destruct (IH Hrange) as (kept & -> & HF').
      apply stock_at_nonneg in Hs as (t & Ht & ->); [|done].
      exists (t :: kept). split; [done | by constructor].
  - intros Hlow. rewrite Hres.
    by rewrite (indexed_search_Raise tks query query_lower _ _ Hlow).
Qed.

Lemma indexed_search_sorted_bounded_witness :
  globals_wf initial_globals
  ∧ empty_query "tcs" = false
  ∧ fst (load_nse_json_data (mkEnv (Some sample_catalog) 0) initial_globals)
    = Some sample_catalog
  ∧ tickers sample_catalog = Some sample_tickers
  ∧ (length (fst (search_nse_stocks "tcs" (mkEnv (Some sample_catalog) 0)
                    initial_globals)) ≤ 10)%nat.
Proof.
  split; [apply initial_globals_wf|]. repeat (split; [reflexivity|]).
  exact (proj1 (indexed_search_sorted_bounded "tcs"
                  (mkEnv (Some sample_catalog) 0) initial_globals
                  sample_catalog sample_tickers
                  initial_globals_wf eq_refl eq_refl eq_refl)).
Defined.

(** C1. The entries returned are not always free of duplicates and in
    ascending order of ticker id. The guard of finalization lets a
    negative id through and Python counts it from the end of the list:
    with the entry "RELIANCE-BE" -> -1 beside "RELIANCE" -> 1 over two
    tickers, the query "reliance" accumulates the ids -1 and 1, both
    subscripts give the ticker with id 1, and RELIANCE is returned twice;
    the query "c" accumulates -1, 0 and 1 and returns the tickers with
    ids 1, 0, 1 in that order. *)
Theorem C1_negative_id_duplicates_entries :
  let tks := tickers_of duplicate_entry_catalog in
  let symbol_index := symbol_index_of duplicate_entry_catalog in
  let name_index := name_index_of duplicate_entry_catalog in
  let reliance := mkStock "RELIANCE" "Reliance Industries Limited" in
  let tcs := mkStock "TCS" "Tata Consultancy Services Limited" in
  sorted (accumulate "reliance" (PyStr.strip (PyStr.lower "reliance")) tks
            symbol_index name_index) = [-1; 1]
  ∧ py_getitem tks (-1) = Return (mkTicker 1 "RELIANCE" "Reliance Industries Limited")
  ∧ py_getitem tks 1 = Return (mkTicker 1 "RELIANCE" "Reliance Industries Limited")
  ∧ run (search_nse_stocks "reliance") (Some duplicate_entry_catalog)
    = [reliance; reliance]
  ∧ ¬ NoDup (run (search_nse_stocks "reliance") (Some duplicate_entry_catalog))
  ∧ sorted (accumulate "c" (PyStr.strip (PyStr.lower "c")) tks
              symbol_index name_index) = [-1; 0; 1]
  ∧ run (search_nse_stocks "c") (Some duplicate_entry_catalog)
    = [reliance; tcs; reliance].
Proof.
  cbv zeta.
  assert (run (search_nse_stocks "reliance") (Some duplicate_entry_catalog)
          = [mkStock "RELIANCE" "Reliance Industries Limited";
             mkStock "RELIANCE" "Reliance Industries Limited"]) as Hdup
    by (vm_compute; reflexivity).
  split; [vm_compute; reflexivity|]. split; [reflexivity|].
  split; [reflexivity|]. split; [exact Hdup|]. split.
  - rewrite Hdup. intros [Hnotin _]%NoDup_cons. apply Hnotin. left.
  - split; vm_compute; reflexivity.
Qed.

(** Tiers 1 and 2 together never hold more than twenty ids. *)
Lemma tier2_after_tier1_size
    (query query_lower : string) (tks : list Ticker) (symbol_index : dict Z) :
  (size (tier2 query_lower symbol_index (tier1 query tks symbol_index ∅)) ≤ 20)%nat.
Proof.
  apply tier2_size. pose proof (tier1_size query tks symbol_index). lia.
Qed.

(** C2. The cap of twenty does not hold in tier 3. In a catalog of
    twenty-one banks, each under its own name, the query "bank" matches
    every name; the [break] of the inner loop of tier 3 leaves the scan of
    the names running, the twenty-first name adds its id, and the
    accumulated set ends with twenty-one ids. *)
Theorem C2_tier3_exceeds_cap :
  let tks := tickers_of bank_catalog in
  (length tks = 21)%nat
  ∧ (size (tier2 "bank" (symbol_index_of bank_catalog)
             (tier1 "bank" tks (symbol_index_of bank_catalog) ∅)) ≤ 20)%nat
  ∧ size (accumulate "bank" (PyStr.strip (PyStr.lower "bank")) tks
            (symbol_index_of bank_catalog) (name_index_of bank_catalog))
    = 21%nat.
Proof.
  split; [reflexivity|]. split; [apply tier2_after_tier1_size|].
  vm_compute. reflexivity.
Qed.

(** C3. Tier 1 looks up [query.upper()], not the trimmed query. For the
    query " x" the trimmed, uppercased form "X" is a key of the symbol
    index and maps to the in-range id 20, yet tier 1 adds nothing; tier 2
    meets twenty other symbols that contain "x" first and stops at the
    cap, so id 20 is not in the accumulated set. *)
Theorem C3_exact_match_missed_for_padded_query :
  let tks := tickers_of x_catalog in
  let symbol_index := symbol_index_of x_catalog in
  dict_get (PyStr.upper (PyStr.strip " x")) symbol_index = Some 20
  ∧ in_range tks 20
  ∧ dict_get (PyStr.upper " x") symbol_index = None
  ∧ tier1 " x" tks symbol_index ∅ = ∅
  ∧ sorted (accumulate " x" (PyStr.strip (PyStr.lower " x")) tks
              symbol_index (name_index_of x_catalog))
    = [0; 1; 2; 3; 4; 5; 6; 7; 8; 9; 10; 11; 12; 13; 14; 15; 16; 17; 18; 19]
  ∧ 20 ∉ accumulate " x" (PyStr.strip (PyStr.lower " x")) tks
           symbol_index (name_index_of x_catalog).
Proof.
  assert (sorted (accumulate " x" (PyStr.strip (PyStr.lower " x"))
                    (tickers_of x_catalog) (symbol_index_of x_catalog)
                    (name_index_of x_catalog))
          = [0; 1; 2; 3; 4; 5; 6; 7; 8; 9; 10; 11; 12; 13; 14; 15; 16; 17; 18; 19])
    as Hsorted by (vm_compute; reflexivity).
  cbv zeta. split; [reflexivity|]. split; [by vm_compute|].
  split; [reflexivity|]. split; [reflexivity|]. split; [done|].
  rewrite <- sorted_elem_of, Hsorted, list_elem_of_In. cbn. lia.
Qed.

(** C8. An accumulated id outside the valid range is not always skipped.
    The guard of the result-building loop is [ticker_id < len(tickers)]
    only, and Python counts a negative subscript from the end: with the
    index entry "ZZZ" -> -1 over two tickers, the query "zzz" accumulates
    the id -1, which is outside the range 0..1, and the search returns the
    last ticker, RELIANCE, although no ticker matches the query. *)
Theorem C8_negative_id_not_skipped :
  let tks := tickers_of negative_id_catalog in
  ¬ in_range tks (-1)
  ∧ sorted (accumulate "zzz" (PyStr.strip (PyStr.lower "zzz")) tks
              (symbol_index_of negative_id_catalog)
              (name_index_of negative_id_catalog)) = [-1]
  ∧ _search_in_list "zzz" (stock_of <$> tks) = []
  ∧ run (search_nse_stocks "zzz") (Some negative_id_catalog)
    = [mkStock "RELIANCE" "Reliance Industries Limited"].
Proof.
  cbv zeta. split; [unfold in_range; lia|].
  repeat split; vm_compute; reflexivity.
Qed.

(** What the guard does achieve: when no accumulated id is negative, the
    loop never raises, skips exactly the ids at or above [len(tickers)] and
    keeps every other one. *)
Lemma build_results_nonneg (tks : list Ticker) (ids : list Z) (results : list Stock) :
  (∀ i, i ∈ ids → 0 ≤ i) →
  build_results tks ids results
  = Return (results ++ omap (λ i, stock_of <$> tks !! Z.to_nat i) ids).
Proof.
  revert results. induction ids as [|i ids IH]; intros results Hpos.
  - cbn. by rewrite app_nil_r.
  - assert (0 ≤ i) by (apply Hpos; left).
    assert (∀ j, j ∈ ids → 0 ≤ j) as Hrest by (intros; apply Hpos; by right).
    cbn [build_results omap list_omap]. destruct (Z.ltb_spec i (Z.of_nat (length tks))).
    + rewrite py_getitem_nonneg by lia.
      destruct (lookup_lt_is_Some_2 tks (Z.to_nat i)) as [t Ht]; [lia|].
      rewrite Ht. cbn. rewrite IH by done. by rewrite <- app_assoc.
    + rewrite (lookup_ge_None_2 tks (Z.to_nat i)) by lia. cbn. by apply IH.
Qed.

(** C10. An exact symbol match can be lost in finalization. In the catalog
    of twenty symbols that start with X followed by the symbol X itself,
    the query "x" makes tier 1 add id 20; the accumulated set then holds
    ten smaller ids, the sorted list is cut after them, and the ticker X
    is not among the ten stocks returned. *)
Theorem C10_exact_match_dropped_by_truncation :
  ∃ (query : string) (jd : JsonData) (tks : list Ticker) (i : Z) (t : Ticker),
    let results_set :=
      accumulate query (PyStr.strip (PyStr.lower query)) tks
        (symbol_index_of jd) (name_index_of jd) in
    tickers jd = Some tks
    ∧ empty_query query = false
    ∧ dict_get (PyStr.upper query) (symbol_index_of jd) = Some i
    ∧ in_range tks i
    ∧ tks !! Z.to_nat i = Some t
    ∧ i ∈ tier1 query tks (symbol_index_of jd) ∅
    ∧ i ∈ results_set
    ∧ (10 ≤ length (filter (λ j : Z, (j < i)%Z) (sorted results_set)))%nat
    ∧ (i ∉ kept_ids tks results_set)
    ∧ length (run (search_nse_stocks query) (Some jd)) = 10%nat
    ∧ (stock_of t ∉ run (search_nse_stocks query) (Some jd)).
Proof.
  exists "x", x_catalog, (tickers_of x_catalog), 20, (mkTicker 20 "X" "Company U").
  cbv zeta.
  assert (in_range (tickers_of x_catalog) 20) as Hrange by (by vm_compute).
  assert (dict_get (PyStr.upper "x") (symbol_index_of x_catalog) = Some 20)
    as Hkey by reflexivity.
  split; [reflexivity|]. split; [reflexivity|]. split; [done|].
  split; [done|]. split; [reflexivity|].
  split; [unfold tier1; rewrite Hkey; vm_compute; set_solver|].
  split; [apply tier1_accumulated; [done | apply Hrange]|].
  split; [vm_compute; lia|].
  split; [refute_by_computation|].
  split; [vm_compute; reflexivity|].
  refute_by_computation.
Qed.

(** ** The linear scan (claims C4, C7) *)

(** C4. The linear scan returns the first ten matching stocks of the list,
    in list order: the result is the list filtered by the match test and
    cut to ten, so it has at most ten entries and is a subsequence of the
    input; a stock matches exactly when the (lowercased) query handed in
    occurs in its lowercased symbol or in its lowercased name; the stocks
    after the tenth match are not looked at; the empty list gives the
    empty result. *)
Theorem C4_linear_scan_first_ten_matches
    (query_lower : string) (nse_stocks : list Stock) :
  _search_in_list query_lower nse_stocks
  = take 10 (filter (λ s, stock_matches query_lower s) nse_stocks)
  ∧ (length (_search_in_list query_lower nse_stocks) ≤ 10)%nat
  ∧ _search_in_list query_lower nse_stocks `sublist_of` nse_stocks
  ∧ (∀ stock, stock_matches query_lower stock = true
       ↔ is_substring query_lower (PyStr.lower (stock_symbol stock))
         ∨ is_substring query_lower (PyStr.lower (stock_name stock)))
  ∧ (∀ scanned unscanned,
       nse_stocks = scanned ++ unscanned →
       (10 ≤ length (filter (λ s, stock_matches query_lower s) scanned))%nat →
       _search_in_list query_lower nse_stocks
       = _search_in_list query_lower scanned)
  ∧ _search_in_list query_lower [] = [].
Proof.
  split; [apply _search_in_list_spec|].
  split; [apply _search_in_list_length|].
  split; [apply _search_in_list_sublist|].
  split; [apply stock_matches_spec|].
  split; [|done].
  intros scanned unscanned -> Hten. by apply _search_in_list_early_exit.
Qed.

Lemma C4_linear_scan_first_ten_matches_witness :
  get_fallback_stocks = take 11 get_fallback_stocks ++ drop 11 get_fallback_stocks
  ∧ (10 ≤ length (filter (λ s, stock_matches "limited" s)
                    (take 11 get_fallback_stocks)))%nat
  ∧ _search_in_list "limited" get_fallback_stocks
    = _search_in_list "limited" (take 11 get_fallback_stocks).
Proof.
  assert (10 ≤ length (filter (λ s, stock_matches "limited" s)
                         (take 11 get_fallback_stocks)))%nat as Hten
    by (vm_compute; lia).
  split; [reflexivity|]. split; [exact Hten|].
  exact (proj1 (proj2 (proj2 (proj2 (proj2
           (C4_linear_scan_first_ten_matches "limited" get_fallback_stocks)))))
           (take 11 get_fallback_stocks) (drop 11 get_fallback_stocks)
           eq_refl Hten).
Defined.

Lemma is_space_lower_char (c : ascii) :
  PyStr.is_space (PyStr.lower_char c) = PyStr.is_space c.
Proof. by destruct c as [[] [] [] [] [] [] [] []]. Qed.

Lemma list_ascii_of_lower (s : string) :
  list_ascii_of_string (PyStr.lower s)
  = PyStr.lower_char <$> list_ascii_of_string s.
Proof. induction s as [|c s IH]; [done|]. cbn. by rewrite IH. Qed.

(** The linear scan that [search_nse_stocks] falls back to is never handed
    the empty string: a query that passes the entry test still has a
    character left once lowercased and trimmed. *)
Lemma query_lower_nonempty (query : string) :
  empty_query query = false →
  PyStr.strip (PyStr.lower query) ≠ EmptyString.
Proof.
  intros Hq Hempty. apply not_true_iff_false in Hq. apply Hq.
  apply empty_query_strip, strip_empty_iff.
  apply strip_empty_iff in Hempty. rewrite list_ascii_of_lower in Hempty.
  apply Forall_fmap in Hempty. eapply Forall_impl; [done|].
  intros c Hc. cbn in Hc. by rewrite is_space_lower_char in Hc.
Qed.

(** The statement of C7 about the linear scan fails: on the empty query
    every stock matches. *)
Lemma C7_counterexample :
  ¬ (∀ T : list Stock, T ≠ [] → _search_in_list "" T = []).
Proof.
  intros H. specialize (H (stock_of <$> sample_tickers)).
  vm_compute in H. by specialize (H ltac:(discriminate)).
Qed.

(** C7, as amended. A query that is empty, or that consists of white space
    only, makes [search_nse_stocks] return the empty list at once; the
    globals are left as they were, so neither the loader nor an index is
    touched. The linear scan itself, handed the empty string, matches
    every stock and returns the first ten of the list, which is empty for
    the empty list only; [search_nse_stocks] never hands it the empty
    string. *)
Theorem C7_empty_query (query : string) (env : Env) (g : Globals) :
  PyStr.strip query = "" →
  search_nse_stocks query env g = ([], g)
  ∧ (∀ T : list Stock, _search_in_list "" T = take 10 T)
  ∧ (∀ T : list Stock, _search_in_list "" T = [] ↔ T = [])
  ∧ (∀ q : string, empty_query q = false → PyStr.strip (PyStr.lower q) ≠ "").
Proof.
  intros Hq. apply empty_query_strip in Hq.
  split; [unfold search_nse_stocks; by rewrite Hq|].
  split; [apply _search_in_list_empty_query|].
  split; [|apply query_lower_nonempty].
  intros T. rewrite _search_in_list_empty_query. by destruct T.
Qed.

Lemma C7_empty_query_witness :
  PyStr.strip "   " = ""
  ∧ search_nse_stocks "   " (mkEnv (Some sample_catalog) 0) initial_globals
    = ([], initial_globals).
Proof.
  split; [reflexivity|].
  exact (proj1 (C7_empty_query "   " (mkEnv (Some sample_catalog) 0)
                  initial_globals eq_refl)).
Defined.

(** ** Fallbacks (claims C5, C6, C9) *)

Lemma filter_eq_nil {A} (P : A → Prop) `{∀ x, Decision (P x)} (l : list A) :
  filter P l = [] ↔ ∀ x, x ∈ l → ¬ P x.
Proof.
  split.
  - intros Hnil x Hx HP. by eapply filter_nil_not_elem_of.
  - intros Hnone. induction l as [|x l IH]; [done|].
    rewrite filter_cons_False by (apply Hnone; left).
    apply IH. intros y Hy. apply Hnone. by right.
Qed.

Lemma take_eq_nil {A} (n : nat) (l : list A) :
  take (S n) l = [] ↔ l = [].
Proof. by destruct l. Qed.

(** The statement of C5 fails: with no JSON file and nothing cached, the
    query "tcs" is answered from the default set. *)
Lemma C5_counterexample :
  ¬ (∀ query : string,
       fst (search_nse_stocks query (mkEnv None 0) initial_globals) = []).
Proof. intros H. specialize (H "tcs"). vm_compute in H. discriminate. Qed.

(** C5, as amended. When the loader yields no ticker list (no JSON document
    can be loaded, or the document has no ["tickers"] key), a non-empty
    query is answered by the linear scan over the fixed default set of 25
    stocks with the trimmed, lowercased query: at most ten default stocks,
    in their fixed order, and the empty list only when no default stock
    matches. *)
Theorem C5_no_catalog_scans_default_set
    (query : string) (env : Env) (g : Globals) :
  globals_wf g →
  fst (load_nse_json_data env g) ≫= tickers = None →
  empty_query query = false →
  let results := fst (search_nse_stocks query env g) in
  results = _search_in_list (PyStr.strip (PyStr.lower query)) get_fallback_stocks
  ∧ results
    = take 10 (filter (λ s, stock_matches (PyStr.strip (PyStr.lower query)) s)
                 get_fallback_stocks)
  ∧ results `sublist_of` get_fallback_stocks
  ∧ (results = [] ↔
     ∀ s, s ∈ get_fallback_stocks →
          stock_matches (PyStr.strip (PyStr.lower query)) s = false).
Proof.
  intros Hwf Hload Hq results.
  assert (results
          = _search_in_list (PyStr.strip (PyStr.lower query)) get_fallback_stocks)
    as Hres.
  { subst results. rewrite search_nse_stocks_fst, Hq by done. cbn zeta.
    destruct (fst (load_nse_json_data env g)) as [jd|]; [|done].
    cbn in Hload. by rewrite Hload. }
  split; [done|]. rewrite Hres.
  split; [apply _search_in_list_spec|].
  split; [apply _search_in_list_sublist|].
  rewrite _search_in_list_spec, take_eq_nil, filter_eq_nil.
  split; intros Hnone s Hs.
  - specialize (Hnone s Hs). destruct (stock_matches _ s); [|done].
    by destruct Hnone.
  - rewrite (Hnone s Hs). by intros [].
Qed.

Lemma C5_no_catalog_scans_default_set_witness :
  globals_wf initial_globals
  ∧ fst (load_nse_json_data (mkEnv None 0) initial_globals) ≫= tickers = None
  ∧ empty_query " Tata " = false
  ∧ fst (search_nse_stocks " Tata " (mkEnv None 0) initial_globals)
    = _search_in_list "tata" get_fallback_stocks.
Proof.
  split; [apply initial_globals_wf|]. repeat (split; [reflexivity|]).
  exact (proj1 (C5_no_catalog_scans_default_set " Tata " (mkEnv None 0)
                  initial_globals initial_globals_wf eq_refl eq_refl)).
Defined.

(** C6. With the ticker list but no index mapping the search does not
    fall back to the linear scan, although [_search_in_list] is documented
    as the fallback for the case that the JSON indexes are not available:
    the query "tcs" gets the empty answer, while the linear scan over the
    same ticker list finds TCS. *)
Theorem C6_missing_indexes_answer_empty :
  tickers tickers_only_catalog = Some sample_tickers
  ∧ symbolIndex tickers_only_catalog = None
  ∧ nameIndex tickers_only_catalog = None
  ∧ run (search_nse_stocks "tcs") (Some tickers_only_catalog) = []
  ∧ _search_in_list "tcs" (stock_of <$> sample_tickers)
    = [mkStock "TCS" "Tata Consultancy Services Limited"]
  ∧ run (search_nse_stocks "tcs") (Some tickers_only_catalog)
    ≠ _search_in_list "tcs" (stock_of <$> sample_tickers).
Proof. repeat split; try (vm_compute; reflexivity). by vm_compute. Qed.

Lemma sorted_empty : sorted ∅ = [].
Proof. unfold sorted. by rewrite elements_empty. Qed.

(** What the code does with an absent index mapping: it takes it as an
    empty one. The answer is the one the same catalog with explicit empty
    mappings gives, a catalog without a symbol index accumulates the ids of
    tier 3 only, one without a name index those of tiers 1 and 2 only, and
    with both mappings absent the answer is empty for every query. *)
Theorem missing_index_is_empty_index
    (query : string) (env : Env) (g : Globals)
    (jd : JsonData) (tks : list Ticker) :
  globals_wf g →
  fst (load_nse_json_data env g) = Some jd →
  tickers jd = Some tks →
  let query_lower := PyStr.strip (PyStr.lower query) in
  let results := fst (search_nse_stocks query env g) in
  results = run (search_nse_stocks query) (Some (with_empty_indexes jd))
  ∧ (symbolIndex jd = None →
       accumulate query query_lower tks (symbol_index_of jd) (name_index_of jd)
       = tier3 query_lower (name_index_of jd) ∅)
  ∧ (nameIndex jd = None →
       accumulate query query_lower tks (symbol_index_of jd) (name_index_of jd)
       = tier2 query_lower (symbol_index_of jd)
           (tier1 query tks (symbol_index_of jd) ∅))
  ∧ (symbolIndex jd = None → nameIndex jd = None → results = []).
Proof.
  intros Hwf Hload Htks query_lower results.
  assert (results
          = if empty_query query then []
            else match indexed_search query query_lower tks
                         (symbol_index_of jd) (name_index_of jd) with
                 | Return r => r
                 | Raise _ => _search_in_list query_lower (stock_of <$> tks)
                 end) as Hres.
  { subst results. rewrite search_nse_stocks_fst by done.
    destruct (empty_query query); [done|]. cbn zeta. by rewrite Hload, Htks. }
  split; [|split; [|split]].
  - rewrite Hres. unfold run.
    rewrite search_nse_stocks_fst by apply initial_globals_wf.
    destruct (empty_query query); [done|]. cbn zeta.
    rewrite load_nse_json_data_fst.
    cbn [_json_data initial_globals env_file with_empty_indexes tickers].
    by rewrite Htks.
  - intros Hsym. unfold accumulate, symbol_index_of. by rewrite Hsym.
  - intros Hname. unfold accumulate, name_index_of. by rewrite Hname.
  - intros Hsym Hname. rewrite Hres.
    destruct (empty_query query); [done|].
    unfold indexed_search, symbol_index_of, name_index_of.
    rewrite Hsym, Hname. cbn [default from_option].
    by rewrite accumulate_no_index, sorted_empty.
Qed.

Lemma missing_index_is_empty_index_witness :
  globals_wf initial_globals
  ∧ fst (load_nse_json_data (mkEnv (Some tickers_only_catalog) 0) initial_globals)
    = Some tickers_only_catalog
  ∧ tickers tickers_only_catalog = Some sample_tickers
  ∧ fst (search_nse_stocks "tcs" (mkEnv (Some tickers_only_catalog) 0)
           initial_globals)
    = run (search_nse_stocks "tcs")
        (Some (with_empty_indexes tickers_only_catalog)).
Proof.
  split; [apply initial_globals_wf|]. repeat (split; [reflexivity|]).
  exact (proj1 (missing_index_is_empty_index "tcs"
                  (mkEnv (Some tickers_only_catalog) 0) initial_globals
                  tickers_only_catalog sample_tickers
                  initial_globals_wf eq_refl eq_refl)).
Defined.

(** C9. [get_nse_indices] returns the first 25 stocks of the loaded ticker
    list when that list is not empty, and otherwise, when no ticker list
    can be loaded or the list is empty, the default set, which is a
    constant list of 25 stocks from RELIANCE to DIVISLAB. *)
Theorem C9_popular_stocks (env : Env) (g : Globals) :
  globals_wf g →
  fst (get_nse_indices env g)
  = match fst (load_nse_json_data env g) ≫= tickers with
    | Some (t :: tks) => stock_of <$> take 25 (t :: tks)
    | _ => get_fallback_stocks
    end
  ∧ length get_fallback_stocks = 25%nat
  ∧ head get_fallback_stocks
    = Some (mkStock "RELIANCE" "Reliance Industries Limited")
  ∧ last get_fallback_stocks
    = Some (mkStock "DIVISLAB" "Divi's Laboratories Limited").
Proof.
  intros Hwf. split; [|repeat split; reflexivity].
  pose proof (fetch_nse_equity_list_fst env g Hwf) as Hfetch.
  destruct (fst (load_nse_json_data env g) ≫= tickers) as [[|t tks]|];
    unfold get_nse_indices; unfold_M;
    destruct (fetch_nse_equity_list env g) as [all_stocks g1];
    cbn [fst] in Hfetch; subst all_stocks.
  - reflexivity.
  - rewrite fmap_take. reflexivity.
  - reflexivity.
Qed.

Lemma C9_popular_stocks_witness :
  globals_wf initial_globals
  ∧ fst (get_nse_indices (mkEnv None 0) initial_globals) = get_fallback_stocks
  ∧ fst (get_nse_indices (mkEnv (Some sample_catalog) 0) initial_globals)
    = stock_of <$> sample_tickers.
Proof.
  split; [apply initial_globals_wf|]. split.
  - exact (proj1 (C9_popular_stocks (mkEnv None 0) initial_globals
                    initial_globals_wf)).
  - exact (proj1 (C9_popular_stocks (mkEnv (Some sample_catalog) 0)
                    initial_globals initial_globals_wf)).
Defined.

(** * Further properties of the service *)

(** ** The loader and the cached equity list *)

Section frozen.
Implicit Types (env : Env) (g : Globals) (jd : JsonData).

Lemma load_nse_json_data_keeps env g jd :
  _json_data g = Some jd →
  load_nse_json_data env g = (Some jd, g).
Proof.
  intros Hjd. unfold load_nse_json_data. unfold_M. cbn. by rewrite Hjd.
Qed.

Lemma fetch_nse_equity_list_keeps env g jd :
  _json_data g = Some jd →
  _json_data (snd (fetch_nse_equity_list env g)) = Some jd.
Proof.
  intros Hjd. unfold fetch_nse_equity_list. unfold_M. cbn.
  destruct (fresh_cache g (env_time env)); [done|].
  rewrite (load_nse_json_data_keeps env g jd Hjd). cbn.
  by destruct (tickers jd).
Qed.

Lemma search_nse_stocks_keeps query env g jd :
  _json_data g = Some jd →
  _json_data (snd (search_nse_stocks query env g)) = Some jd.
Proof.
  intros Hjd. unfold search_nse_stocks.
  destruct (empty_query query); [done|]. unfold_M.
  rewrite (load_nse_json_data_keeps env g jd Hjd). cbn [mbind option_bind].
  pose proof (fetch_nse_equity_list_keeps env g jd Hjd).
  destruct (tickers jd) as [tks|].
  - destruct (indexed_search _ _ _ _ _); [done|].
    by destruct (fetch_nse_equity_list env g).
  - by destruct (fetch_nse_equity_list env g).
Qed.

Lemma get_nse_indices_keeps env g jd :
  _json_data g = Some jd →
  _json_data (snd (get_nse_indices env g)) = Some jd.
Proof.
  intros Hjd. unfold get_nse_indices. unfold_M.
  pose proof (fetch_nse_equity_list_keeps env g jd Hjd).
  by destruct (fetch_nse_equity_list env g) as [[|s l] g1].
Qed.

End frozen.

(** X1. The JSON document is read at most once. A load that finds the
    file stores the document; from then on every service call, whatever
    the file holds by then and whatever the clock says, keeps that very
    document in [_json_data] and the loader hands it out again. A load
    that finds no file stores nothing, so that the next call tries
    again. *)
Theorem X1_catalog_frozen_after_first_load
    (env env' : Env) (g : Globals) (jd : JsonData) (query : string) :
  fst (load_nse_json_data env g) = Some jd →
  let g1 := snd (load_nse_json_data env g) in
  _json_data g1 = Some jd
  ∧ load_nse_json_data env' g1 = (Some jd, g1)
  ∧ _json_data (snd (fetch_nse_equity_list env' g1)) = Some jd
  ∧ _json_data (snd (search_nse_stocks query env' g1)) = Some jd
  ∧ _json_data (snd (get_nse_indices env' g1)) = Some jd
  ∧ (_json_data g = None → env_file env' = None →
       load_nse_json_data env' g = (None, g)).
Proof.
  intros Hload g1.
  assert (_json_data g1 = Some jd) as Hjd.
  { subst g1. by rewrite load_nse_json_data_snd, Hload. }
  split; [done|]. split; [by apply load_nse_json_data_keeps|].
  split; [by apply fetch_nse_equity_list_keeps|].
  split; [by apply search_nse_stocks_keeps|].
  split; [by apply get_nse_indices_keeps|].
  intros Hnone Hfile. unfold load_nse_json_data. unfold_M. cbn.
  by rewrite Hnone, Hfile.
Qed.

Lemma X1_catalog_frozen_after_first_load_witness :
  fst (load_nse_json_data (mkEnv (Some sample_catalog) 0) initial_globals)
  = Some sample_catalog
  ∧ load_nse_json_data (mkEnv (Some tickers_only_catalog) 50000)
      (snd (load_nse_json_data (mkEnv (Some sample_catalog) 0) initial_globals))
    = (Some sample_catalog,
       snd (load_nse_json_data (mkEnv (Some sample_catalog) 0) initial_globals)).
Proof.
  split; [reflexivity|].
  exact (proj1 (proj2 (X1_catalog_frozen_after_first_load
                  (mkEnv (Some sample_catalog) 0)
                  (mkEnv (Some tickers_only_catalog) 50000)
                  initial_globals sample_catalog "tcs" eq_refl))).
Defined.

(** X2. Once a document is cached, the twelve-hour expiry of the equity
    list has no effect on any answer: the equity list, the popular stocks
    and every search result are the same for every clock reading and every
    later content of the file. *)
Theorem X2_answers_do_not_depend_on_clock_or_file
    (env env' : Env) (g : Globals) (jd : JsonData) (query : string) :
  globals_wf g →
  _json_data g = Some jd →
  fst (fetch_nse_equity_list env g) = fst (fetch_nse_equity_list env' g)
  ∧ fst (get_nse_indices env g) = fst (get_nse_indices env' g)
  ∧ fst (search_nse_stocks query env g) = fst (search_nse_stocks query env' g).
Proof.
  intros Hwf Hjd.
  assert (fst (fetch_nse_equity_list env g) = fst (fetch_nse_equity_list env' g))
    as Hfetch.
  { rewrite !fetch_nse_equity_list_fst by done.
    by rewrite !(load_nse_json_data_keeps _ g jd Hjd). }
  split; [done|]. split.
  - unfold get_nse_indices. unfold_M.
    destruct (fetch_nse_equity_list env g) as [l1 g1].
    destruct (fetch_nse_equity_list env' g) as [l2 g2].
    cbn [fst] in Hfetch. subst l2. by destruct l1.
  - rewrite !search_nse_stocks_fst by done.
    by rewrite !(load_nse_json_data_keeps _ g jd Hjd).
Qed.

Lemma X2_answers_do_not_depend_on_clock_or_file_witness :
  let g := snd (fetch_nse_equity_list (mkEnv (Some sample_catalog) 0)
                  initial_globals) in
  globals_wf g
  ∧ _json_data g = Some sample_catalog
  ∧ fst (fetch_nse_equity_list (mkEnv None 100) g)
    = fst (fetch_nse_equity_list (mkEnv (Some tickers_only_catalog) 90000) g).
Proof.
  cbv zeta.
  assert (globals_wf (snd (fetch_nse_equity_list (mkEnv (Some sample_catalog) 0)
                             initial_globals))) as Hwf
    by apply fetch_nse_equity_list_wf, initial_globals_wf.
  split; [exact Hwf|]. split; [reflexivity|].
  exact (proj1 (X2_answers_do_not_depend_on_clock_or_file
                  (mkEnv None 100) (mkEnv (Some tickers_only_catalog) 90000)
                  _ sample_catalog "tcs" Hwf eq_refl)).
Defined.

(** X3. The popular stocks are never the empty list and never more than
    25: they are the first 25 entries of the equity list when that list is
    not empty, and the default set otherwise. *)
Theorem X3_popular_stocks_nonempty_bounded (env : Env) (g : Globals) :
  let all_stocks := fst (fetch_nse_equity_list env g) in
  let popular := fst (get_nse_indices env g) in
  (1 ≤ length popular ≤ 25)%nat
  ∧ (all_stocks ≠ [] → popular = take 25 all_stocks)
  ∧ (all_stocks = [] → popular = get_fallback_stocks)
  ∧ snd (get_nse_indices env g) = snd (fetch_nse_equity_list env g).
Proof.
  unfold get_nse_indices. unfold_M.
  destruct (fetch_nse_equity_list env g) as [[|s l] g1]; cbn [fst snd].
  - split; [cbn; lia|]. done.
  - split; [|done]. rewrite length_take. cbn [length]. lia.
Qed.

(** ** Where search results come from *)

Lemma py_getitem_elem_of {A} (l : list A) (i : Z) (a : A) :
  py_getitem l i = Return a → a ∈ l.
Proof.
  unfold py_getitem. destruct (_ || _); [done|].
  destruct (l !! _) as [a'|] eqn:Hl; [|done].
  intros [= <-]. by eapply list_elem_of_lookup_2.
Qed.

Lemma build_results_elem_of (tks : list Ticker) (ids : list Z)
    (results r : list Stock) (s : Stock) :
  build_results tks ids results = Return r →
  s ∈ r → s ∈ results ∨ s ∈ stock_of <$> tks.
Proof.
  revert results. induction ids as [|i ids IH]; intros results; cbn [build_results].
  - intros [= <-]. by left.
  - destruct (i <? _); [|by apply IH].
    destruct (py_getitem tks i) as [t|] eqn:Ht; [|done].
    intros Hr Hs. destruct (IH _ Hr Hs) as [Hin|Hin]; [|by right].
    apply elem_of_app in Hin as [Hin|Hin]; [by left|].
    apply list_elem_of_singleton in Hin as ->. right.
    apply list_elem_of_fmap_2. by eapply py_getitem_elem_of.
Qed.

Lemma indexed_search_elem_of (query query_lower : string) (tks : list Ticker)
    (symbol_index : dict Z) (name_index : dict (list Z))
    (r : list Stock) (s : Stock) :
  indexed_search query query_lower tks symbol_index name_index = Return r →
  s ∈ r → s ∈ stock_of <$> tks.
Proof.
  unfold indexed_search.
  destruct (build_results _ _ _) as [all|] eqn:Hall; [|done].
  intros [= <-] Hs.
  assert (s ∈ all) as Hin by (eapply elem_of_sublist; [done | apply sublist_take]).
  destruct (build_results_elem_of _ _ _ _ _ Hall Hin) as [Hnil|?]; [|done].
  by apply elem_of_nil in Hnil.
Qed.

(** X4. Search never invents a stock. Every entry it returns is the
    symbol and name of a ticker of the loaded ticker list, and when no
    ticker list can be loaded every entry is one of the default set. *)
Theorem X4_search_results_come_from_catalog
    (query : string) (env : Env) (g : Globals) (s : Stock) :
  globals_wf g →
  s ∈ fst (search_nse_stocks query env g) →
  match fst (load_nse_json_data env g) ≫= tickers with
  | Some tks => ∃ t, t ∈ tks ∧ s = stock_of t
  | None => s ∈ get_fallback_stocks
  end.
Proof.
  intros Hwf. rewrite search_nse_stocks_fst by done.
  destruct (empty_query query); [by intros ?%elem_of_nil|]. cbn zeta.
  destruct (fst (load_nse_json_data env g)) as [jd|]; cbn [mbind option_bind].
  - destruct (tickers jd) as [tks|].
    + intros Hs.
      assert (s ∈ stock_of <$> tks) as Hin.
      { destruct (indexed_search _ _ _ _ _) as [r|] eqn:Hr.
        - by eapply indexed_search_elem_of.
        - eapply elem_of_sublist; [done | apply _search_in_list_sublist]. }
      apply list_elem_of_fmap in Hin as (t & -> & Ht). eauto.
    + intros Hs. eapply elem_of_sublist; [done | apply _search_in_list_sublist].
  - intros Hs. eapply elem_of_sublist; [done | apply _search_in_list_sublist].
Qed.

Lemma X4_search_results_come_from_catalog_witness :
  globals_wf initial_globals
  ∧ (mkStock "TCS" "Tata Consultancy Services Limited"
       ∈ fst (search_nse_stocks "tcs" (mkEnv (Some sample_catalog) 0)
                initial_globals))
  ∧ ∃ t, t ∈ sample_tickers
         ∧ mkStock "TCS" "Tata Consultancy Services Limited" = stock_of t.
Proof.
  assert (mkStock "TCS" "Tata Consultancy Services Limited"
            ∈ fst (search_nse_stocks "tcs" (mkEnv (Some sample_catalog) 0)
                     initial_globals)) as Hin by (vm_compute; left).
  split; [apply initial_globals_wf|]. split; [exact Hin|].
  exact (X4_search_results_come_from_catalog "tcs"
           (mkEnv (Some sample_catalog) 0) initial_globals _
           initial_globals_wf Hin).
Defined.

(** ** Case of the query *)

(** The entry test of [search_nse_stocks] sees the lowercased query
    only. *)
Lemma empty_query_lower (query : string) :
  empty_query query = true ↔ PyStr.strip (PyStr.lower query) = EmptyString.
Proof.
  rewrite empty_query_strip, !strip_empty_iff, list_ascii_of_lower, Forall_fmap.
  apply Forall_iff. intros c. cbn. by rewrite is_space_lower_char.
Qed.

(** X5. Search sees the query through its lowercase and its uppercase
    form only: two queries with the same lowercase form and the same
    uppercase form, as two spellings of one word in different letter case
    have, get the same answer and leave the same globals. *)
Theorem X5_search_ignores_case (q1 q2 : string) (env : Env) (g : Globals) :
  PyStr.lower q1 = PyStr.lower q2 →
  PyStr.upper q1 = PyStr.upper q2 →
  search_nse_stocks q1 env g = search_nse_stocks q2 env g.
Proof.
  intros Hlower Hupper.
  assert (empty_query q1 = empty_query q2) as Hempty.
  { apply eq_true_iff_eq. by rewrite !empty_query_lower, Hlower. }
  unfold search_nse_stocks, indexed_search, accumulate, tier1.
  by rewrite Hempty, Hlower, Hupper.
Qed.

Lemma X5_search_ignores_case_witness :
  PyStr.lower "Tcs" = PyStr.lower "tCS"
  ∧ PyStr.upper "Tcs" = PyStr.upper "tCS"
  ∧ search_nse_stocks "Tcs" (mkEnv (Some sample_catalog) 0) initial_globals
    = search_nse_stocks "tCS" (mkEnv (Some sample_catalog) 0) initial_globals.
Proof.
  split; [reflexivity|]. split; [reflexivity|].
  exact (X5_search_ignores_case "Tcs" "tCS" (mkEnv (Some sample_catalog) 0)
           initial_globals eq_refl eq_refl).
Defined.

(** ** What the tiers accumulate *)

Section accumulated.
Implicit Types (results_set : gset Z) (symbol_index : dict Z)
  (name_index : dict (list Z)).

Lemma dict_get_elem_of {V} (k : string) (v : V) (d : dict V) :
  dict_get k d = Some v → (k, v) ∈ d.
Proof.
  induction d as [|[k' v'] d IH]; [done|]. cbn [dict_get].
  destruct (String.eqb_spec k k') as [->|Hne].
  - intros [= ->]. left.
  - intros H. right. by apply IH.
Qed.

Lemma tier2_sound query_lower symbol_index results_set i :
  i ∈ tier2 query_lower symbol_index results_set →
  i ∈ results_set
  ∨ ∃ symbol, (symbol, i) ∈ symbol_index
              ∧ PyStr.contains query_lower (PyStr.lower symbol) = true.
Proof.
  revert results_set.
  induction symbol_index as [|[symbol j] rest IH]; intros rs; cbn [tier2];
    [by left|].
  destruct (PyStr.contains _ _) eqn:Hm.
  - assert (i ∈ ({[j]} ∪ rs : gset Z) →
            i ∈ rs ∨ ∃ symbol0, (symbol0, i) ∈ (symbol, j) :: rest
              ∧ PyStr.contains query_lower (PyStr.lower symbol0) = true) as Hadd.
    { intros [->%elem_of_singleton|?]%elem_of_union; [|by left].
      right. exists symbol. split; [left | done]. }
    destruct (Nat.leb 20 _); [done|].
    intros [Hin|(symbol0 & Hin & Hc)]%IH; [by apply Hadd|].
    right. exists symbol0. split; [by right | done].
  - intros [Hin|(symbol0 & Hin & Hc)]%IH; [by left|].
    right. exists symbol0. split; [by right | done].
Qed.

Lemma tier3_ids_sound ticker_ids results_set i :
  i ∈ tier3_ids ticker_ids results_set → i ∈ results_set ∨ i ∈ ticker_ids.
Proof.
  revert results_set.
  induction ticker_ids as [|j rest IH]; intros rs; cbn [tier3_ids]; [by left|].
  assert (i ∈ ({[j]} ∪ rs : gset Z) → i ∈ rs ∨ i ∈ j :: rest) as Hadd.
  { intros [->%elem_of_singleton|?]%elem_of_union; [right; left | by left]. }
  destruct (Nat.leb 20 _); [done|].
  intros [Hin|Hin]%IH; [by apply Hadd | right; by right].
Qed.

Lemma tier3_sound query_lower name_index results_set i :
  i ∈ tier3 query_lower name_index results_set →
  i ∈ results_set
  ∨ ∃ name ids, (name, ids) ∈ name_index
                ∧ PyStr.contains query_lower name = true ∧ i ∈ ids.
Proof.
  revert results_set.
  induction name_index as [|[name ids] rest IH]; intros rs; cbn [tier3];
    [by left|].
  destruct (PyStr.contains _ _) eqn:Hm.
  - intros [Hin|(name0 & ids0 & Hin & Hc & Hi)]%IH.
    + apply tier3_ids_sound in Hin as [?|?]; [by left|].
      right. exists name, ids. split; [left | done].
    + right. exists name0, ids0. split; [by right | done].
  - intros [Hin|(name0 & ids0 & Hin & Hc & Hi)]%IH; [by left|].
    right. exists name0, ids0. split; [by right | done].
Qed.

Lemma accumulate_sound query query_lower tks symbol_index name_index i :
  i ∈ accumulate query query_lower tks symbol_index name_index →
  id_explained query query_lower symbol_index name_index i.
Proof.
  unfold accumulate, id_explained.
  intros [Hin|?]%tier3_sound; [|by right; right].
  apply tier2_sound in Hin as [Hin|?]; [|by right; left].
  left. unfold tier1 in Hin.
  destruct (dict_get _ symbol_index) as [j|]; [|by apply elem_of_empty in Hin].
  destruct (j <? _); [|by apply elem_of_empty in Hin].
  apply elem_of_union in Hin as [->%elem_of_singleton|Hin]; [done|].
  by apply elem_of_empty in Hin.
Qed.

Lemma tier2_complete query_lower symbol_index results_set symbol i :
  (size (tier2 query_lower symbol_index results_set) < 20)%nat →
  (symbol, i) ∈ symbol_index →
  PyStr.contains query_lower (PyStr.lower symbol) = true →
  i ∈ tier2 query_lower symbol_index results_set.
Proof.
  revert results_set.
  induction symbol_index as [|[symbol0 j] rest IH]; intros rs Hsize Hin Hc;
    [by apply elem_of_nil in Hin|].
  cbn [tier2] in *.
  apply elem_of_cons in Hin as [[= <- <-]|Hin].
  - rewrite Hc in *.
    destruct (Nat.leb 20 (size ({[i]} ∪ rs))) eqn:Hcap.
    + apply Nat.leb_le in Hcap. lia.
    + apply tier2_mono. set_solver.
  - destruct (PyStr.contains query_lower (PyStr.lower symbol0)); [|by apply IH].
    destruct (Nat.leb 20 (size ({[j]} ∪ rs))) eqn:Hcap.
    + apply Nat.leb_le in Hcap. lia.
    + by apply IH.
Qed.

Lemma tier3_ids_complete ticker_ids results_set i :
  (size (tier3_ids ticker_ids results_set) < 20)%nat →
  i ∈ ticker_ids → i ∈ tier3_ids ticker_ids results_set.
Proof.
  revert results_set.
  induction ticker_ids as [|j rest IH]; intros rs Hsize Hin;
    [by apply elem_of_nil in Hin|].
  cbn [tier3_ids] in *.
  destruct (Nat.leb 20 (size ({[j]} ∪ rs))) eqn:Hcap.
  - apply Nat.leb_le in Hcap. lia.
  - apply elem_of_cons in Hin as [->|Hin]; [|by apply IH].
    apply tier3_ids_mono. set_solver.
Qed.

Lemma tier3_complete query_lower name_index results_set name ids i :
  (size (tier3 query_lower name_index results_set) < 20)%nat →
  (name, ids) ∈ name_index →
  PyStr.contains query_lower name = true →
  i ∈ ids →
  i ∈ tier3 query_lower name_index results_set.
Proof.
  revert results_set.
  induction name_index as [|[name0 ids0] rest IH]; intros rs Hsize Hin Hc Hi;
    [by apply elem_of_nil in Hin|].
  cbn [tier3] in *.
  apply elem_of_cons in Hin as [[= <- <-]|Hin].
  - rewrite Hc in *. apply tier3_mono, tier3_ids_complete; [|done].
    eapply Nat.le_lt_trans; [|done].
    apply subseteq_size, tier3_mono.
  - destruct (PyStr.contains query_lower name0); by apply IH.
Qed.

Lemma accumulate_complete query query_lower tks symbol_index name_index :
  let results_set :=
    accumulate query query_lower tks symbol_index name_index in
  (size results_set < 20)%nat →
  (∀ symbol i, (symbol, i) ∈ symbol_index →
     PyStr.contains query_lower (PyStr.lower symbol) = true → i ∈ results_set)
  ∧ (∀ name ids i, (name, ids) ∈ name_index →
       PyStr.contains query_lower name = true → i ∈ ids → i ∈ results_set).
Proof.
  intros results_set Hsize. split.
  - intros symbol i Hin Hc. apply tier3_mono. eapply tier2_complete; [|done..].
    eapply Nat.le_lt_trans; [|done]. apply subseteq_size, tier3_mono.
  - intros name ids i Hin Hc Hi. by eapply tier3_complete.
Qed.

End accumulated.

(** X6. Every id in the accumulated set is accounted for by an index
    entry: the exact entry for the uppercased query, a symbol entry whose
    lowercased key contains the lowercased query, or a name entry whose key
    contains it and which lists the id. *)
Theorem X6_accumulated_ids_have_matching_entries
    (query query_lower : string) (tks : list Ticker)
    (symbol_index : dict Z) (name_index : dict (list Z)) (i : Z) :
  i ∈ accumulate query query_lower tks symbol_index name_index →
  id_explained query query_lower symbol_index name_index i.
Proof. apply accumulate_sound. Qed.

Lemma X6_accumulated_ids_have_matching_entries_witness :
  (1 ∈ accumulate "reliance" "reliance" sample_tickers
         (symbol_index_of sample_catalog) (name_index_of sample_catalog))
  ∧ id_explained "reliance" "reliance" (symbol_index_of sample_catalog)
      (name_index_of sample_catalog) 1.
Proof.
  assert (1 ∈ accumulate "reliance" "reliance" sample_tickers
                (symbol_index_of sample_catalog) (name_index_of sample_catalog))
    as Hin by (by vm_compute).
  split; [exact Hin|].
  exact (X6_accumulated_ids_have_matching_entries "reliance" "reliance"
           sample_tickers _ _ 1 Hin).
Defined.

(** X7. Below the cap nothing is lost. When the accumulated set ends with
    fewer than twenty ids, it holds the id of every symbol entry whose
    lowercased key contains the lowercased query and every id listed under
    a name key that contains it. *)
Theorem X7_below_cap_every_match_is_accumulated
    (query query_lower : string) (tks : list Ticker)
    (symbol_index : dict Z) (name_index : dict (list Z)) :
  let results_set :=
    accumulate query query_lower tks symbol_index name_index in
  (size results_set < 20)%nat →
  (∀ symbol i, (symbol, i) ∈ symbol_index →
     PyStr.contains query_lower (PyStr.lower symbol) = true → i ∈ results_set)
  ∧ (∀ name ids i, (name, ids) ∈ name_index →
       PyStr.contains query_lower name = true → i ∈ ids → i ∈ results_set).
Proof. apply accumulate_complete. Qed.

Lemma X7_below_cap_every_match_is_accumulated_witness :
  (size (accumulate "tcs" "tcs" sample_tickers
           (symbol_index_of sample_catalog) (name_index_of sample_catalog))
   < 20)%nat
  ∧ (0 ∈ accumulate "tcs" "tcs" sample_tickers
           (symbol_index_of sample_catalog) (name_index_of sample_catalog)).
Proof.
  assert (size (accumulate "tcs" "tcs" sample_tickers
                  (symbol_index_of sample_catalog)
                  (name_index_of sample_catalog)) < 20)%nat as Hsize
    by (vm_compute; lia).
  split; [exact Hsize|].
  refine (proj1 (X7_below_cap_every_match_is_accumulated "tcs" "tcs"
                   sample_tickers _ _ Hsize) "TCS" 0 _ eq_refl).
  left.
Defined.

Lemma accumulate_nonneg (query query_lower : string) (tks : list Ticker)
    (symbol_index : dict Z) (name_index : dict (list Z)) (i : Z) :
  ids_nonneg symbol_index name_index →
  i ∈ accumulate query query_lower tks symbol_index name_index → 0 ≤ i.
Proof.
  intros [Hsym Hname] Hi.
  destruct (accumulate_sound _ _ _ _ _ _ Hi)
    as [Hkey|[(symbol & Hin & _)|(name & ids & Hin & _ & Hids)]].
  - apply dict_get_elem_of in Hkey. by eapply Hsym.
  - by eapply Hsym.
  - by eapply Hname.
Qed.

Lemma indexed_search_nonneg (query query_lower : string) (tks : list Ticker)
    (symbol_index : dict Z) (name_index : dict (list Z)) :
  ids_nonneg symbol_index name_index →
  indexed_search query query_lower tks symbol_index name_index
  = Return (take 10 (omap (λ i, stock_of <$> tks !! Z.to_nat i)
                       (sorted (accumulate query query_lower tks
                                  symbol_index name_index)))).
Proof.
  intros Hnonneg. unfold indexed_search.
  rewrite build_results_nonneg; [done|].
  intros i Hi%sorted_elem_of. by eapply accumulate_nonneg.
Qed.

(** X8. With no negative id in the two indexes the indexed search never
    raises and never falls back: the answer is built from the accumulated
    ids in ascending order, an id at or beyond the end of the ticker list
    is passed over without a trace, every other id gives the symbol and
    name of the ticker at that position, and the first ten entries are
    returned. *)
Theorem X8_nonnegative_ids_are_looked_up_or_skipped
    (query : string) (env : Env) (g : Globals)
    (jd : JsonData) (tks : list Ticker) :
  globals_wf g →
  empty_query query = false →
  fst (load_nse_json_data env g) = Some jd →
  tickers jd = Some tks →
  ids_nonneg (symbol_index_of jd) (name_index_of jd) →
  fst (search_nse_stocks query env g)
  = take 10
      (omap (λ i, stock_of <$> tks !! Z.to_nat i)
         (sorted (accumulate query (PyStr.strip (PyStr.lower query)) tks
                    (symbol_index_of jd) (name_index_of jd)))).
Proof.
  intros Hwf Hq Hload Htks Hnonneg.
  rewrite search_nse_stocks_fst by done. rewrite Hq, Hload, Htks. cbn zeta.
  by rewrite indexed_search_nonneg.
Qed.

Lemma X8_nonnegative_ids_are_looked_up_or_skipped_witness :
  let jd := mkJson (Some sample_tickers)
              (Some [("TCS", 0); ("TCSX", 7); ("RELIANCE", 1)]) (Some []) in
  globals_wf initial_globals
  ∧ empty_query "tcs" = false
  ∧ fst (load_nse_json_data (mkEnv (Some jd) 0) initial_globals) = Some jd
  ∧ tickers jd = Some sample_tickers
  ∧ ids_nonneg (symbol_index_of jd) (name_index_of jd)
  ∧ fst (search_nse_stocks "tcs" (mkEnv (Some jd) 0) initial_globals)
    = [mkStock "TCS" "Tata Consultancy Services Limited"].
Proof.
  cbv zeta.
  assert (ids_nonneg [("TCS", 0); ("TCSX", 7); ("RELIANCE", 1)] []) as Hnonneg.
  { split.
    - intros symbol i Hin. repeat (apply elem_of_cons in Hin as [[= _ ->]|Hin]);
        [lia..|by apply elem_of_nil in Hin].
    - intros name ids i Hin. by apply elem_of_nil in Hin. }
  split; [apply initial_globals_wf|]. repeat (split; [reflexivity|]).
  split; [exact Hnonneg|].
  rewrite (X8_nonnegative_ids_are_looked_up_or_skipped "tcs"
             (mkEnv (Some (mkJson (Some sample_tickers)
                             (Some [("TCS", 0); ("TCSX", 7); ("RELIANCE", 1)])
                             (Some []))) 0)
             initial_globals _ sample_tickers
             initial_globals_wf eq_refl eq_refl eq_refl Hnonneg).
  vm_compute. reflexivity.
Defined.

(** ** The routes *)

(** X9. The [/stocks] response is never empty: it lists between 1 and 25
    stocks and its [total] is the number of stocks listed. *)
Theorem X9_all_stocks_total (env : Env) (g : Globals) :
  let response := fst (get_all_stocks env g) in
  resp_total response = Z.of_nat (length (resp_stocks response))
  ∧ 1 ≤ resp_total response ≤ 25
  ∧ resp_stocks response = fst (get_nse_indices env g)
  ∧ resp_source response = "local JSON file".
Proof.
  unfold get_all_stocks, get_popular_stocks_cached. unfold_M.
  assert (1 ≤ length (fst (get_nse_indices env g)) ≤ 25)%nat as Hlen.
  { unfold get_nse_indices. unfold_M.
    destruct (fetch_nse_equity_list env g) as [[|s l] g1]; cbn [fst].
    - cbn. lia.
    - rewrite length_take. cbn [length]. lia. }
  destruct (get_nse_indices env g) as [stocks g1]. cbn [fst] in *.
  cbn [resp_total resp_stocks resp_source]. split; [done|]. split; [lia|done].
Qed.

(** The test of the route and the entry test of the service agree. *)
Lemma search_stocks_guard (query : string) :
  PyStr.strip (PyStr.lower query) = EmptyString ↔ empty_query query = true.
Proof. by rewrite empty_query_lower. Qed.

(** X10. [/stocks/search] with a blank query (empty, or white space only)
    answers with the first six popular stocks, which are at least one and
    at most six; with any other query it answers with the search result,
    and the entry test of [search_nse_stocks] never fires on that path. *)
Theorem X10_search_route_blank_and_nonblank
    (query : string) (env : Env) (g : Globals) :
  (PyStr.strip query = "" →
     fst (search_stocks query env g) = take 6 (fst (get_nse_indices env g))
     ∧ (1 ≤ length (fst (search_stocks query env g)) ≤ 6)%nat)
  ∧ (PyStr.strip query ≠ "" →
       search_stocks query env g = search_nse_stocks query env g
       ∧ empty_query query = false).
Proof.
  assert (1 ≤ length (fst (get_nse_indices env g)) ≤ 25)%nat as Hlen.
  { unfold get_nse_indices. unfold_M.
    destruct (fetch_nse_equity_list env g) as [[|s l] g1]; cbn [fst].
    - cbn. lia.
    - rewrite length_take. cbn [length]. lia. }
  split.
  - intros Hblank. apply empty_query_strip, empty_query_lower in Hblank.
    unfold search_stocks, get_popular_stocks_cached. rewrite Hblank. unfold_M.
    destruct (get_nse_indices env g) as [stocks g1]. cbn [fst] in *.
    split; [done|]. rewrite length_take. lia.
  - intros Hnonblank.
    assert (empty_query query = false) as Hq.
    { apply not_true_iff_false. by rewrite empty_query_strip. }
    split; [|done]. unfold search_stocks.
    destruct (PyStr.strip (PyStr.lower query)) eqn:Hql; [|done].
    apply search_stocks_guard in Hql. congruence.
Qed.

Lemma X10_search_route_blank_and_nonblank_witness :
  PyStr.strip "  " = ""
  ∧ fst (search_stocks "  " (mkEnv None 0) initial_globals)
    = take 6 get_fallback_stocks.
Proof.
  split; [reflexivity|].
  exact (proj1 (proj1 (X10_search_route_blank_and_nonblank "  "
                         (mkEnv None 0) initial_globals) eq_refl)).
Defined.

(** X11. [/stocks/search] never lists more than ten stocks. *)
Theorem X11_search_route_at_most_ten
    (query : string) (env : Env) (g : Globals) :
  globals_wf g →
  (length (fst (search_stocks query env g)) ≤ 10)%nat.
Proof.
  intros Hwf. unfold search_stocks, get_popular_stocks_cached.
  destruct (PyStr.strip (PyStr.lower query)).
  - unfold_M. destruct (get_nse_indices env g) as [stocks g1]. cbn [fst].
    rewrite length_take. lia.
  - by apply search_nse_stocks_length.
Qed.

Lemma X11_search_route_at_most_ten_witness :
  globals_wf initial_globals
  ∧ (length (fst (search_stocks "limited" (mkEnv None 0) initial_globals))
     ≤ 10)%nat.
Proof.
  split; [apply initial_globals_wf|].
  exact (X11_search_route_at_most_ten "limited" (mkEnv None 0) initial_globals
           initial_globals_wf).
Defined.

(** ** The price text *)

Section price_text.
Import PriceText.

Lemma all_chars_nil f : all_chars f EmptyString.
Proof. constructor. Qed.

Lemma all_chars_cons f c s :
  all_chars f (String c s) ↔ f c = true ∧ all_chars f s.
Proof. unfold all_chars. cbn. by rewrite Forall_cons. Qed.

Lemma no_chars_cons f c s :
  no_chars f (String c s) ↔ f c = false ∧ no_chars f s.
Proof. unfold no_chars. cbn. by rewrite Forall_cons. Qed.

Lemma span_spec (f : ascii → bool) (s run rest : string) :
  span f s = (run, rest) →
  s = run +:+ rest ∧ all_chars f run
  ∧ match rest with String c _ => f c = false | EmptyString => True end.
Proof.
  revert run rest. induction s as [|c s IH]; intros run rest; cbn [span].
  - intros [= <- <-]. split; [done|]. split; [apply all_chars_nil | done].
  - destruct (f c) eqn:Hc.
    + destruct (span f s) as [run' rest'] eqn:Hspan. intros [= <- <-].
      destruct (IH _ _ eq_refl) as (-> & Hrun & Hrest).
      split; [done|]. split; [by apply all_chars_cons | done].
    + intros [= <- <-]. split; [done|]. split; [apply all_chars_nil | done].
Qed.

Lemma fraction_cases (s : string) :
  fraction s = EmptyString
  ∨ ∃ a b, fraction s = String "."%char (String a (String b EmptyString))
           ∧ is_digit a = true ∧ is_digit b = true.
Proof.
  destruct s as [|dot [|a [|b s]]]; try (by left). cbn [fraction].
  destruct (Ascii.eqb_spec dot "."%char) as [->|]; [|by left].
  destruct (is_digit a) eqn:Ha; [|by left].
  destruct (is_digit b) eqn:Hb; [|by left].
  right. by exists a, b.
Qed.

Lemma remove_commas_app (a b : string) :
  remove_commas (a +:+ b) = remove_commas a +:+ remove_commas b.
Proof.
  induction a as [|c a IH]; [done|].
  rewrite append_cons. cbn [remove_commas].
  destruct (Ascii.eqb c ","%char); [done|]. by rewrite append_cons, IH.
Qed.

Lemma remove_commas_run (run : string) :
  all_chars is_price_char run → all_chars is_digit (remove_commas run).
Proof.
  induction run as [|c run IH]; [intros _; apply all_chars_nil|].
  intros [Hc Hrun]%all_chars_cons. cbn [remove_commas].
  unfold is_price_char in Hc.
  destruct (Ascii.eqb c ","%char); [by apply IH|].
  rewrite orb_false_r in Hc. apply all_chars_cons. split; [done | by apply IH].
Qed.

Lemma digit_not_comma (d : ascii) :
  is_digit d = true →
  Ascii.eqb d ","%char = false ∧ Ascii.eqb ","%char d = false.
Proof.
  intros Hd. split.
  - destruct (Ascii.eqb_spec d ","%char) as [->|]; [by vm_compute in Hd | done].
  - destruct (Ascii.eqb_spec ","%char d) as [<-|]; [by vm_compute in Hd | done].
Qed.

Lemma remove_commas_fraction (s : string) :
  remove_commas (fraction s) = fraction s.
Proof.
  destruct (fraction_cases s) as [->|(a & b & -> & Ha & Hb)]; [done|].
  cbn [remove_commas].
  by rewrite (proj1 (digit_not_comma a Ha)), (proj1 (digit_not_comma b Hb)).
Qed.

(** The match, when there is one, starts at the first character of the
    class: a greedy run of class characters and the optional group. *)
Lemma re_search_Some (txt m : string) :
  re_search txt = Some m →
  ∃ pre c run tail,
    txt = pre +:+ String c run +:+ tail
    ∧ no_chars is_price_char pre
    ∧ all_chars is_price_char (String c run)
    ∧ match tail with
      | String c' _ => is_price_char c' = false
      | EmptyString => True
      end
    ∧ m = String c run +:+ fraction tail.
Proof.
  induction txt as [|c txt IH]; [done|]. cbn [re_search].
  destruct (is_price_char c) eqn:Hc.
  - destruct (span is_price_char (String c txt)) as [run tail] eqn:Hspan.
    intros [= <-]. pose proof (span_spec _ _ _ _ Hspan) as (Htxt & Hrun & Htail).
    cbn [span] in Hspan. rewrite Hc in Hspan.
    destruct (span is_price_char txt) as [run' tail'].
    injection Hspan as <- <-.
    exists EmptyString, c, run', tail'. split; [done|].
    split; [constructor|]. done.
  - intros (pre & c' & run & tail & -> & Hpre & Hrun & Htail & ->)%IH.
    exists (String c pre), c', run, tail. split; [done|].
    split; [by apply no_chars_cons|]. done.
Qed.

Lemma re_search_None (txt : string) :
  re_search txt = None ↔ no_chars is_price_char txt.
Proof.
  induction txt as [|c txt IH]; cbn [re_search].
  - split; [constructor | done].
  - rewrite no_chars_cons. destruct (is_price_char c).
    + destruct (span _ _). split; [done | by intros [? _]].
    + rewrite IH. split; [done | by intros [_ ?]].
Qed.

Lemma re_search_skip (pre s : string) :
  no_chars is_price_char pre → re_search (pre +:+ s) = re_search s.
Proof.
  induction pre as [|c pre IH]; [done|].
  intros [Hc Hpre]%no_chars_cons. rewrite append_cons. cbn [re_search].
  rewrite Hc. by apply IH.
Qed.

End price_text.

(** X12. A price that [fetch_google_finance_price] returns is read from a
    literal without commas that consists of digits followed by nothing or
    by a point and exactly two digits, and that is not empty. *)
Theorem X12_price_literal_shape (txt p : string) :
  fetch_google_finance_price (Some txt) = Some p →
  price_literal p ∧ p ≠ "" ∧ no_chars (Ascii.eqb ","%char) p.
Proof.
  unfold fetch_google_finance_price.
  destruct (PriceText.re_search txt) as [m|] eqn:Hm; [|done].
  apply re_search_Some in Hm
    as (pre & c & run & tail & _ & _ & Hrun & _ & ->).
  rewrite remove_commas_app, remove_commas_fraction.
  pose proof (remove_commas_run _ Hrun) as Hwhole.
  set (whole := PriceText.remove_commas (String c run)) in *.
  intros Hp.
  assert (p = whole +:+ PriceText.fraction tail) as ->.
  { destruct (whole +:+ PriceText.fraction tail); [done | congruence]. }
  assert (whole +:+ PriceText.fraction tail ≠ "") as Hne.
  { destruct (whole +:+ PriceText.fraction tail); done. }
  split; [|split; [done|]].
  - exists whole, (PriceText.fraction tail). split; [done|].
    split; [done | apply fraction_cases].
  - assert (∀ s, all_chars PriceText.is_digit s →
                 no_chars (Ascii.eqb ","%char) s) as Hdigits.
    { intros s Hs. unfold all_chars, no_chars in *.
      eapply Forall_impl; [done|]. intros d Hd. cbn in *.
      by apply digit_not_comma. }
    unfold no_chars.
    assert (list_ascii_of_string (whole +:+ PriceText.fraction tail)
            = list_ascii_of_string whole
              ++ list_ascii_of_string (PriceText.fraction tail)) as ->.
    { clear. induction whole as [|d w IH]; [done|].
      rewrite append_cons. cbn. by rewrite IH. }
    apply Forall_app. split; [by apply Hdigits|].
    destruct (fraction_cases tail) as [->|(a & b & -> & Ha & Hb)];
      [constructor|].
    cbn. repeat constructor; by apply digit_not_comma.
Qed.

Lemma X12_price_literal_shape_witness :
  fetch_google_finance_price (Some "Rs 1,525.30 (+0.4%)") = Some "1525.30"
  ∧ price_literal "1525.30".
Proof.
  split; [reflexivity|].
  exact (proj1 (X12_price_literal_shape "Rs 1,525.30 (+0.4%)" "1525.30" eq_refl)).
Defined.

(** X13. [fetch_google_finance_price] returns no price when the page gave
    no element text or the text has neither a digit nor a comma; it does
    return one whenever the first digit-or-comma character of the text is
    a digit, and the literal then starts with that digit. *)
Theorem X13_price_found_or_not (txt : string) :
  fetch_google_finance_price None = None
  ∧ (no_chars PriceText.is_price_char txt →
       fetch_google_finance_price (Some txt) = None)
  ∧ (∀ pre d rest,
       txt = pre +:+ String d rest →
       no_chars PriceText.is_price_char pre →
       PriceText.is_digit d = true →
       ∃ p, fetch_google_finance_price (Some txt) = Some (String d p)).
Proof.
  split; [done|]. split.
  - intros Hnone%re_search_None. unfold fetch_google_finance_price.
    by rewrite Hnone.
  - intros pre d rest -> Hpre Hd. unfold fetch_google_finance_price.
    rewrite re_search_skip by done. cbn [PriceText.re_search PriceText.span].
    unfold PriceText.is_price_char at 1 2. rewrite Hd. cbn [orb].
    destruct (PriceText.span PriceText.is_price_char rest) as [run tail].
    rewrite append_cons. cbn [PriceText.remove_commas].
    rewrite (proj1 (digit_not_comma d Hd)). eauto.
Qed.

Lemma X13_price_found_or_not_witness :
  no_chars PriceText.is_price_char "n/a"
  ∧ fetch_google_finance_price (Some "n/a") = None.
Proof.
  assert (no_chars PriceText.is_price_char "n/a") as Hnone
    by (repeat constructor).
  split; [exact Hnone|].
  exact (proj1 (proj2 (X13_price_found_or_not "n/a")) Hnone).
Defined.

(** ** Dictionaries and positions *)

Section dict_facts.
Context {V : Type}.
Implicit Types (d : dict V) (k : string) (v : V).

Lemma dict_get_set k k' v d :
  dict_get k (dict_set k' v d)
  = if String.eqb k k' then Some v else dict_get k d.
Proof.
  induction d as [|[k0 v0] d IH]; cbn [dict_set dict_get]; [done|].
  destruct (String.eqb_spec k' k0) as [->|Hne]; cbn [dict_get].
  - by destruct (String.eqb k k0).
  - rewrite IH. destruct (String.eqb_spec k k0) as [->|]; [|done].
    destruct (String.eqb_spec k0 k'); [congruence | done].
Qed.

Lemma dict_get_None_keys k d : dict_get k d = None → k ∉ d.*1.
Proof.
  induction d as [|[k0 v0] d IH]; cbn [dict_get]; [intros _; apply not_elem_of_nil|].
  destruct (String.eqb_spec k k0); [done|].
  intros H. cbn. apply not_elem_of_cons. by split; [|apply IH].
Qed.

Lemma dict_set_keys k v d :
  (dict_set k v d).*1
  = match dict_get k d with Some _ => d.*1 | None => d.*1 ++ [k] end.
Proof.
  induction d as [|[k0 v0] d IH]; cbn [dict_set dict_get]; [done|].
  destruct (String.eqb_spec k k0) as [->|Hne]; [done|].
  cbn. rewrite IH. by destruct (dict_get k d).
Qed.

Lemma dict_set_NoDup k v d : NoDup d.*1 → NoDup (dict_set k v d).*1.
Proof.
  intros Hd. rewrite dict_set_keys.
  destruct (dict_get k d) eqn:Hk; [done|].
  apply NoDup_app. split; [done|]. split; [|apply NoDup_singleton].
  intros x Hx ->%list_elem_of_singleton. by apply dict_get_None_keys in Hk.
Qed.

(** In a dictionary, an entry is what the lookup of its key gives. *)
Lemma elem_of_dict_get k v d :
  NoDup d.*1 → (k, v) ∈ d → dict_get k d = Some v.
Proof.
  induction d as [|[k0 v0] d IH]; [by intros _ ?%elem_of_nil|].
  cbn. intros [Hk0 Hd]%NoDup_cons [[= -> ->]|Hin]%elem_of_cons.
  - by rewrite String.eqb_refl.
  - destruct (String.eqb_spec k k0) as [->|]; [|by apply IH].
    destruct Hk0. by apply (list_elem_of_fmap_2 fst) in Hin.
Qed.

End dict_facts.

Section positions.
Context {A : Type} (f : A → bool).

Lemma positions_from_app (start : Z) (l l' : list A) :
  positions_from f start (l ++ l')
  = positions_from f start l
    ++ positions_from f (start + Z.of_nat (length l)) l'.
Proof.
  revert start. induction l as [|a l IH]; intros start.
  - cbn. by rewrite Z.add_0_r.
  - cbn [app positions_from length]. rewrite IH, <- app_assoc.
    do 3 f_equal. lia.
Qed.

Lemma positions_from_snoc (l : list A) (a : A) :
  positions_from f 0 (l ++ [a])
  = positions_from f 0 l ++ if f a then [Z.of_nat (length l)] else [].
Proof.
  rewrite positions_from_app. cbn [positions_from]. by rewrite app_nil_r.
Qed.

Lemma elem_of_positions_from (start : Z) (l : list A) (z : Z) :
  z ∈ positions_from f start l
  ↔ ∃ i a, l !! i = Some a ∧ f a = true ∧ z = start + Z.of_nat i.
Proof.
  revert start. induction l as [|a l IH]; intros start; cbn [positions_from].
  - split; [by intros ?%elem_of_nil | by intros (i & a & ? & _)].
  - rewrite elem_of_app, IH. split.
    + intros [Hz|(i & b & Hi & Hb & ->)].
      * destruct (f a) eqn:Ha; [|by apply elem_of_nil in Hz].
        apply list_elem_of_singleton in Hz as ->.
        exists 0%nat, a. split; [done|]. split; [done | lia].
      * exists (S i), b. split; [done|]. split; [done | lia].
    + intros ([|i] & b & Hi & Hb & ->).
      * injection Hi as ->. left. rewrite Hb. apply list_elem_of_singleton. lia.
      * right. exists i, b. split; [done|]. split; [done | lia].
Qed.

Lemma positions_from_sorted (start : Z) (l : list A) :
  StronglySorted Z.lt (positions_from f start l).
Proof.
  revert start. induction l as [|a l IH]; intros start; cbn [positions_from];
    [constructor|].
  destruct (f a); [|apply IH]. cbn. constructor; [apply IH|].
  apply Forall_forall. intros z (i & b & _ & _ & ->)%elem_of_positions_from. lia.
Qed.

Lemma positions_from_length (start : Z) (l : list A) :
  length (positions_from f start l) = length (filter (λ a, f a) l).
Proof.
  revert start. induction l as [|a l IH]; intros start; [done|].
  cbn [positions_from]. rewrite length_app, IH.
  destruct (f a) eqn:Ha.
  - rewrite filter_cons_True by (by rewrite Ha). done.
  - rewrite filter_cons_False by (rewrite Ha; auto). done.
Qed.

End positions.

Lemma StronglySorted_lt_le (l : list Z) :
  StronglySorted Z.lt l → StronglySorted Z.le l.
Proof.
  induction 1 as [|x l Hl IH Hx]; constructor; [done|].
  eapply Forall_impl; [done|]. intros y Hy. cbn in *. lia.
Qed.

Lemma StronglySorted_lt_NoDup (l : list Z) : StronglySorted Z.lt l → NoDup l.
Proof.
  induction 1 as [|x l Hl IH Hx]; constructor; [|done].
  intros Hin. rewrite Forall_forall in Hx. specialize (Hx x Hin). lia.
Qed.

(** Two strictly ascending lists with the same elements are equal. *)
Lemma StronglySorted_lt_unique (l k : list Z) :
  StronglySorted Z.lt l → StronglySorted Z.lt k →
  (∀ z, z ∈ l ↔ z ∈ k) → l = k.
Proof.
  intros Hl Hk Hiff.
  apply (StronglySorted_unique Z.le); [by apply StronglySorted_lt_le..|].
  apply NoDup_Permutation; [by apply StronglySorted_lt_NoDup..|done].
Qed.

(** ** The builder *)

Section builder.

Lemma nonempty_default {A} (l : list A) : default [] (nonempty l) = l.
Proof. by destruct l. Qed.

Lemma nonempty_snoc {A} (l : list A) (a : A) :
  nonempty (l ++ [a]) = Some (l ++ [a]).
Proof. by destruct l. Qed.

Lemma loop_state_step (seen : list CsvRow) (row : CsvRow) (idx : Z)
    (tks : list TickerObj) (symbol_index : dict Z)
    (name_index : dict (list Z)) :
  loop_state seen idx tks symbol_index name_index →
  let symbol := PyStr.upper (row_symbol row) in
  let name_lower := PyStr.lower (row_name row) in
  let name_index1 :=
    match dict_get name_lower name_index with
    | None => dict_set name_lower [] name_index
    | Some _ => name_index
    end in
  loop_state (seen ++ [row]) (idx + 1)
    (tks ++ [mkTickerObj idx symbol (row_name row)
               (PyStr.lower (symbol +:+ " " +:+ row_name row))])
    (dict_set symbol idx symbol_index)
    (dict_set name_lower
       (default [] (dict_get name_lower name_index1) ++ [idx]) name_index1).
Proof.
  intros (-> & -> & Hsym & Hname & Hnd1 & Hnd2) symbol name_lower name_index1.
  assert (NoDup name_index1.*1) as Hnd2'.
  { subst name_index1. destruct (dict_get name_lower name_index); [done|].
    by apply dict_set_NoDup. }
  assert (∀ n, dict_get n name_index1
               = if String.eqb n name_lower
                 then Some (positions_from (has_name_lower name_lower) 0 seen)
                 else dict_get n name_index) as Hget1.
  { intros n. subst name_index1.
    destruct (dict_get name_lower name_index) as [ids|] eqn:Hids.
    - destruct (String.eqb_spec n name_lower) as [->|]; [|done].
      rewrite Hids. rewrite Hname in Hids.
      destruct (positions_from _ 0 seen); [done|]. by injection Hids as <-.
    - rewrite dict_get_set.
      destruct (String.eqb_spec n name_lower) as [->|]; [|done].
      rewrite Hname in Hids. by destruct (positions_from _ 0 seen). }
  split; [rewrite length_app; cbn; lia|].
  split; [by rewrite imap_app; cbn; rewrite Nat.add_0_r|].
  split; [|split; [|split; [by apply dict_set_NoDup | by apply dict_set_NoDup]]].
  - intros s. rewrite dict_get_set, positions_from_snoc, Hsym.
    change (has_symbol s row) with (String.eqb symbol s).
    destruct (String.eqb_spec s symbol) as [->|Hne].
    + rewrite String.eqb_refl. by rewrite last_snoc.
    + destruct (String.eqb_spec symbol s); [congruence|]. by rewrite app_nil_r.
  - intros n. rewrite dict_get_set, positions_from_snoc.
    change (has_name_lower n row) with (String.eqb name_lower n).
    rewrite (Hget1 name_lower), String.eqb_refl. cbn [default from_option].
    destruct (String.eqb_spec n name_lower) as [->|Hne].
    + rewrite String.eqb_refl. by rewrite nonempty_snoc.
    + destruct (String.eqb_spec name_lower n); [congruence|].
      rewrite app_nil_r, Hget1.
      destruct (String.eqb_spec n name_lower); [congruence|]. apply Hname.
Qed.

Lemma create_search_json_loop_state (seen rest : list CsvRow) (idx : Z)
    (tks : list TickerObj) (symbol_index : dict Z)
    (name_index : dict (list Z)) :
  loop_state seen idx tks symbol_index name_index →
  let '(tks', symbol_index', name_index') :=
    create_search_json_loop rest idx tks symbol_index name_index in
  loop_state (seen ++ rest) (Z.of_nat (length (seen ++ rest)))
    tks' symbol_index' name_index'.
Proof.
  revert seen idx tks symbol_index name_index.
  induction rest as [|row rest IH]; intros seen idx tks si ni Hst.
  - cbn [create_search_json_loop]. rewrite app_nil_r.
    destruct Hst as (-> & Hst). by split.
  - cbn [create_search_json_loop]. cbv zeta.
    pose proof (loop_state_step _ row _ _ _ _ Hst) as Hstep. cbv zeta in Hstep.
    specialize (IH _ _ _ _ _ Hstep). by rewrite <- app_assoc in IH.
Qed.

Lemma loop_state_initial : loop_state [] 0 [] [] [].
Proof. repeat split; try done; constructor. Qed.

(** The built [search_data] is the one described by all the rows. *)
Lemma build_search_data_state (rows : list CsvRow) :
  let sd := build_search_data rows in
  loop_state rows (sd_total sd) (sd_tickers sd)
    (sd_symbolIndex sd) (sd_nameIndex sd).
Proof.
  unfold build_search_data.
  pose proof (create_search_json_loop_state [] rows 0 [] [] []
                loop_state_initial) as Hst.
  destruct (create_search_json_loop rows 0 [] [] []) as [[tks si] ni].
  cbn [app] in Hst. cbn.
  destruct Hst as (_ & Htks & Hrest). split; [|by split].
  by rewrite Htks, length_imap.
Qed.

End builder.

Section built_catalog.
Variable rows : list CsvRow.

Let sd : SearchData := build_search_data rows.
Let tks : list Ticker := ticker_of_obj <$> sd_tickers sd.

Lemma built_tickers : sd_tickers sd
  = imap (λ i row, ticker_obj_of (Z.of_nat i) row) rows.
Proof. by destruct (build_search_data_state rows) as (_ & ? & _). Qed.

Lemma built_tickers_lookup (i : nat) :
  tks !! i
  = (λ row, ticker_of_obj (ticker_obj_of (Z.of_nat i) row)) <$> rows !! i.
Proof.
  subst tks. rewrite list_lookup_fmap, built_tickers, list_lookup_imap.
  by destruct (rows !! i).
Qed.

Lemma built_symbol_index (s : string) :
  dict_get s (sd_symbolIndex sd) = last (positions_from (has_symbol s) 0 rows).
Proof. by destruct (build_search_data_state rows) as (_ & _ & ? & _). Qed.

Lemma built_name_index (n : string) :
  dict_get n (sd_nameIndex sd)
  = nonempty (positions_from (has_name_lower n) 0 rows).
Proof. by destruct (build_search_data_state rows) as (_ & _ & _ & ? & _). Qed.

Lemma built_keys_NoDup :
  NoDup (sd_symbolIndex sd).*1 ∧ NoDup (sd_nameIndex sd).*1.
Proof. by destruct (build_search_data_state rows) as (_ & _ & _ & _ & ?). Qed.

Lemma last_elem_of {A} (l : list A) (a : A) : last l = Some a → a ∈ l.
Proof.
  intros Hl. apply last_Some in Hl as [l' ->].
  apply elem_of_app. right. left.
Qed.

Lemma nonempty_Some {A} (l k : list A) : nonempty l = Some k → k = l.
Proof. destruct l; [done|]. by intros [= <-]. Qed.

Lemma built_catalog_consistent :
  catalog_consistent tks (sd_symbolIndex sd) (sd_nameIndex sd).
Proof.
  destruct built_keys_NoDup as [Hnd1 Hnd2]. split.
  - intros symbol i Hin. apply elem_of_dict_get in Hin; [|done].
    rewrite built_symbol_index in Hin. apply last_elem_of in Hin.
    apply elem_of_positions_from in Hin as (k & row & Hk & Hrow & ->).
    split; [lia|]. rewrite Z.add_0_l, Nat2Z.id, built_tickers_lookup, Hk.
    eexists. split; [done|]. cbn. by apply String.eqb_eq in Hrow.
  - intros name ids i Hin Hi. apply elem_of_dict_get in Hin; [|done].
    rewrite built_name_index in Hin. apply nonempty_Some in Hin as ->.
    apply elem_of_positions_from in Hi as (k & row & Hk & Hrow & ->).
    split; [lia|]. rewrite Z.add_0_l, Nat2Z.id, built_tickers_lookup, Hk.
    eexists. split; [done|]. cbn. by apply String.eqb_eq in Hrow.
Qed.

Lemma built_catalog_complete :
  distinct_symbols rows →
  catalog_complete tks (sd_symbolIndex sd) (sd_nameIndex sd).
Proof.
  intros Hdistinct. split.
  - intros i t. rewrite built_tickers_lookup.
    destruct (rows !! i) as [row|] eqn:Hrow; [|done]. intros [= <-]. cbn.
    apply dict_get_elem_of. rewrite built_symbol_index.
    assert (Z.of_nat i
              ∈ positions_from (has_symbol (PyStr.upper (row_symbol row))) 0 rows)
      as Hi.
    { apply elem_of_positions_from. exists i, row. split; [done|].
      split; [apply String.eqb_refl | lia]. }
    destruct (last _) as [z|] eqn:Hlast.
    + f_equal. apply last_elem_of in Hlast.
      apply elem_of_positions_from in Hlast as (j & row' & Hj & Hrow' & ->).
      apply String.eqb_eq in Hrow'.
      assert (j = i) as ->; [|lia].
      eapply (NoDup_lookup _ j i); [exact Hdistinct|..];
        rewrite list_lookup_fmap; [by rewrite Hj; cbn; rewrite Hrow'|].
      by rewrite Hrow.
    + apply last_None in Hlast. rewrite Hlast in Hi. by apply elem_of_nil in Hi.
  - intros i t. rewrite built_tickers_lookup.
    destruct (rows !! i) as [row|] eqn:Hrow; [|done]. intros [= <-]. cbn.
    assert (Z.of_nat i
              ∈ positions_from (has_name_lower (PyStr.lower (row_name row))) 0 rows)
      as Hi.
    { apply elem_of_positions_from. exists i, row. split; [done|].
      split; [apply String.eqb_refl | lia]. }
    exists (positions_from (has_name_lower (PyStr.lower (row_name row))) 0 rows).
    split; [|done]. apply dict_get_elem_of. rewrite built_name_index.
    destruct (positions_from _ 0 rows); [by apply elem_of_nil in Hi | done].
Qed.

End built_catalog.

Lemma upper_char_idemp (c : ascii) :
  PyStr.upper_char (PyStr.upper_char c) = PyStr.upper_char c.
Proof. by destruct c as [[] [] [] [] [] [] [] []]. Qed.

Lemma upper_idemp (s : string) : PyStr.upper (PyStr.upper s) = PyStr.upper s.
Proof.
  induction s as [|c s IH]; [done|]. cbn. by rewrite upper_char_idemp, IH.
Qed.

(** X14. The builder numbers the tickers by position: the ticker list has
    one entry per CSV row, in row order, the entry at position [i] has id
    [i], the uppercased symbol and the unchanged name of row [i], [total]
    is the number of rows, and every stored symbol is in upper case. When
    the CSV file is missing nothing is written and the builder returns
    [False]. *)
Theorem X14_builder_ids_are_positions (rows : list CsvRow) :
  let sd := build_search_data rows in
  create_search_json (Some rows) = (true, Some sd)
  ∧ create_search_json None = (false, None)
  ∧ sd_total sd = Z.of_nat (length rows)
  ∧ length (sd_tickers sd) = length rows
  ∧ (∀ i row, rows !! i = Some row →
       sd_tickers sd !! i = Some (ticker_obj_of (Z.of_nat i) row))
  ∧ (∀ i o, sd_tickers sd !! i = Some o →
       obj_id o = Z.of_nat i ∧ PyStr.upper (obj_symbol o) = obj_symbol o).
Proof.
  intros sd. pose proof (built_tickers rows) as Htks. fold sd in Htks.
  destruct (build_search_data_state rows) as (Htotal & _). fold sd in Htotal.
  split; [done|]. split; [done|]. split; [done|].
  split; [by rewrite Htks, length_imap|]. split.
  - intros i row Hrow. by rewrite Htks, list_lookup_imap, Hrow.
  - intros i o. rewrite Htks, list_lookup_imap.
    destruct (rows !! i) as [row|]; [|done]. intros [= <-]. cbn.
    split; [done | apply upper_idemp].
Qed.

(** X15. The symbol index of the builder maps an uppercase symbol to the
    position of the last row that carries it (the last one seen wins), has
    no entry for a symbol that no row carries, and has no key twice. *)
Theorem X15_builder_symbol_index_last_row_wins (rows : list CsvRow) (s : string) :
  let sd := build_search_data rows in
  dict_get s (sd_symbolIndex sd) = last (positions_from (has_symbol s) 0 rows)
  ∧ (∀ i, dict_get s (sd_symbolIndex sd) = Some i →
       ∃ k row, i = Z.of_nat k ∧ rows !! k = Some row
                ∧ PyStr.upper (row_symbol row) = s
                ∧ ∀ k' row', rows !! k' = Some row' → (k < k')%nat →
                             PyStr.upper (row_symbol row') ≠ s)
  ∧ NoDup (sd_symbolIndex sd).*1.
Proof.
  intros sd. pose proof (built_symbol_index rows s) as Hget. fold sd in Hget.
  split; [done|]. split; [|apply built_keys_NoDup].
  intros i. rewrite Hget. intros Hlast.
  pose proof (last_elem_of _ _ Hlast) as Hin.
  apply elem_of_positions_from in Hin as (k & row & Hk & Hrow & ->).
  exists k, row. split; [lia|]. split; [done|].
  split; [by apply String.eqb_eq in Hrow|].
  intros k' row' Hk' Hlt Hs.
  assert (Z.of_nat k' ∈ positions_from (has_symbol s) 0 rows) as Hin'.
  { apply elem_of_positions_from. exists k', row'. split; [done|].
    split; [by apply String.eqb_eq | lia]. }
  apply last_Some in Hlast as [l' Hl'].
  pose proof (positions_from_sorted (has_symbol s) 0 rows) as Hsorted.
  rewrite Hl' in Hsorted, Hin'.
  apply elem_of_app in Hin' as [Hin'|Hin'%list_elem_of_singleton]; [|lia].
  apply StronglySorted_app_1_elem_of with (x1 := Z.of_nat k') (x2 := 0 + Z.of_nat k)
    in Hsorted; [lia | done | left].
Qed.

Lemma X15_builder_symbol_index_last_row_wins_witness :
  dict_get "TCS" (sd_symbolIndex (build_search_data
                    [mkRow "tcs" "Tata"; mkRow "rel" "Reliance"; mkRow "TCS" "TCS"]))
  = Some 2
  ∧ ∃ k row, 2 = Z.of_nat k
             ∧ [mkRow "tcs" "Tata"; mkRow "rel" "Reliance"; mkRow "TCS" "TCS"] !! k
               = Some row
             ∧ PyStr.upper (row_symbol row) = "TCS".
Proof.
  split; [reflexivity|].
  destruct (proj1 (proj2 (X15_builder_symbol_index_last_row_wins
              [mkRow "tcs" "Tata"; mkRow "rel" "Reliance"; mkRow "TCS" "TCS"]
              "TCS")) 2 eq_refl) as (k & row & Hk & Hrow & Hs & _).
  exists k, row. done.
Defined.

(** X16. The name index of the builder lists, under a lowercased name, the
    positions of all the rows with that lowercased name, in ascending
    order; a name that no row has is not a key, and no key occurs twice. *)
Theorem X16_builder_name_index_groups_rows (rows : list CsvRow) (n : string) :
  let sd := build_search_data rows in
  dict_get n (sd_nameIndex sd)
  = nonempty (positions_from (has_name_lower n) 0 rows)
  ∧ (∀ ids, dict_get n (sd_nameIndex sd) = Some ids →
       ids ≠ [] ∧ StronglySorted Z.lt ids
       ∧ ∀ i, i ∈ ids ↔ ∃ k row, i = Z.of_nat k ∧ rows !! k = Some row
                                 ∧ PyStr.lower (row_name row) = n)
  ∧ NoDup (sd_nameIndex sd).*1.
Proof.
  intros sd. pose proof (built_name_index rows n) as Hget. fold sd in Hget.
  split; [done|]. split; [|apply built_keys_NoDup].
  intros ids. rewrite Hget. intros Hids.
  pose proof (nonempty_Some _ _ Hids) as ->.
  split; [by destruct (positions_from _ 0 rows)|].
  split; [apply positions_from_sorted|].
  intros i. rewrite elem_of_positions_from. split.
  - intros (k & row & Hk & Hrow & ->). exists k, row.
    split; [lia|]. split; [done | by apply String.eqb_eq in Hrow].
  - intros (k & row & -> & Hk & Hrow). exists k, row.
    split; [done|]. split; [by apply String.eqb_eq | lia].
Qed.

Lemma X16_builder_name_index_groups_rows_witness :
  dict_get "tata" (sd_nameIndex (build_search_data
                     [mkRow "a" "Tata"; mkRow "b" "Reliance"; mkRow "c" "TATA"]))
  = Some [0; 2]
  ∧ StronglySorted Z.lt [0; 2].
Proof.
  split; [reflexivity|].
  exact (proj1 (proj2 (proj1 (proj2 (X16_builder_name_index_groups_rows
           [mkRow "a" "Tata"; mkRow "b" "Reliance"; mkRow "c" "TATA"] "tata"))
           [0; 2] eq_refl))).
Defined.

(** X17. The catalog that the builder writes is consistent: every symbol
    entry points at a ticker of the list with that symbol, every id under
    a name key at a ticker with that lowercased name, no id is negative or
    beyond the list. When no two rows share a symbol it is also complete:
    every ticker is indexed at its position under its symbol and under its
    lowercased name. *)
Theorem X17_builder_catalog_consistent (rows : list CsvRow) :
  let jd := catalog_of_rows rows in
  catalog_consistent (tickers_of jd) (symbol_index_of jd) (name_index_of jd)
  ∧ ids_nonneg (symbol_index_of jd) (name_index_of jd)
  ∧ (distinct_symbols rows →
       catalog_complete (tickers_of jd) (symbol_index_of jd) (name_index_of jd)).
Proof.
  intros jd. pose proof (built_catalog_consistent rows) as Hcons.
  split; [exact Hcons|]. split; [|apply built_catalog_complete].
  destruct Hcons as [Hsym Hname]. split.
  - intros symbol i Hin. by destruct (Hsym symbol i Hin).
  - intros name ids i Hin Hi. by destruct (Hname name ids i Hin Hi).
Qed.

Lemma X17_builder_catalog_consistent_witness :
  distinct_symbols sample_rows
  ∧ catalog_complete (tickers_of (catalog_of_rows sample_rows))
      (symbol_index_of (catalog_of_rows sample_rows))
      (name_index_of (catalog_of_rows sample_rows)).
Proof.
  assert (distinct_symbols sample_rows) as Hdistinct.
  { unfold distinct_symbols. refine (bool_decide_unpack _ _). by vm_compute. }
  split; [exact Hdistinct|].
  exact (proj2 (proj2 (X17_builder_catalog_consistent sample_rows)) Hdistinct).
Defined.

(** ** Indexed search against the linear scan *)

Lemma lstrip_suffix (s : string) : ∃ pre, s = pre +:+ PyStr.lstrip s.
Proof.
  induction s as [|c s [pre IH]]; [by exists EmptyString|]. cbn [PyStr.lstrip].
  destruct (PyStr.is_space c); [|by exists EmptyString].
  exists (String c pre). by rewrite append_cons, <- IH.
Qed.

Lemma rstrip_prefix (s : string) : ∃ post, s = PyStr.rstrip s +:+ post.
Proof.
  induction s as [|c s [post IH]]; [by exists EmptyString|]. cbn [PyStr.rstrip].
  destruct (PyStr.rstrip s) as [|c' r] eqn:Hr.
  - destruct (PyStr.is_space c).
    + by exists (String c s).
    + exists s. by rewrite append_cons, append_nil.
  - exists post. by rewrite append_cons, <- IH.
Qed.

(** A stripped string occurs in the string it was stripped from. *)
Lemma strip_substring (s : string) : is_substring (PyStr.strip s) s.
Proof.
  destruct (lstrip_suffix s) as [pre Hpre].
  destruct (rstrip_prefix (PyStr.lstrip s)) as [post Hpost].
  exists pre, post. unfold PyStr.strip. by rewrite <- Hpost.
Qed.

Section consistent_catalog.
Variables (query : string) (tks : list Ticker).
Variables (symbol_index : dict Z) (name_index : dict (list Z)).

Let query_lower : string := PyStr.strip (PyStr.lower query).
Let results_set : gset Z :=
  accumulate query query_lower tks symbol_index name_index.

Hypothesis Hconsistent : catalog_consistent tks symbol_index name_index.

(** Lowercasing the uppercased query gives the lowercased query. *)
Hypothesis Hround : PyStr.lower (PyStr.upper query) = PyStr.lower query.

Lemma consistent_ids_nonneg : ids_nonneg symbol_index name_index.
Proof.
  destruct Hconsistent as [Hsym Hname]. split.
  - intros symbol i Hin. by destruct (Hsym symbol i Hin).
  - intros name ids i Hin Hi. by destruct (Hname name ids i Hin Hi).
Qed.

(** In a consistent catalog every accumulated id is the position of a
    ticker that the linear scan would accept too; for the id that tier 1
    adds this needs the case round trip of the query. *)
Lemma consistent_accumulated (i : Z) :
  i ∈ results_set →
  0 ≤ i ∧ ∃ t, tks !! Z.to_nat i = Some t ∧ ticker_matches query_lower t = true.
Proof.
  intros Hi. destruct Hconsistent as [Hsym Hname].
  unfold ticker_matches, stock_matches. cbn [stock_symbol stock_name stock_of].
  destruct (accumulate_sound _ _ _ _ _ _ Hi)
    as [Hkey|[(symbol & Hin & Hc)|(name & ids & Hin & Hc & Hids)]].
  - apply dict_get_elem_of in Hkey.
    destruct (Hsym _ _ Hkey) as (Hpos & t & Ht & Hsymbol).
    split; [done|]. exists t. split; [done|].
    rewrite Hsymbol, Hround. apply orb_true_iff. left.
    apply contains_spec, strip_substring.
  - destruct (Hsym _ _ Hin) as (Hpos & t & Ht & Hsymbol).
    split; [done|]. exists t. split; [done|]. by rewrite Hsymbol, Hc.
  - destruct (Hname _ _ _ Hin Hids) as (Hpos & t & Ht & Hn).
    split; [done|]. exists t. split; [done|]. rewrite Hn, Hc. apply orb_true_r.
Qed.

Lemma consistent_indexed_search :
  indexed_search query query_lower tks symbol_index name_index
  = Return (take 10 (omap (λ i, stock_of <$> tks !! Z.to_nat i)
                       (sorted results_set))).
Proof. apply indexed_search_nonneg, consistent_ids_nonneg. Qed.

Lemma consistent_results_match (s : Stock) :
  s ∈ take 10 (omap (λ i, stock_of <$> tks !! Z.to_nat i) (sorted results_set)) →
  stock_matches query_lower s = true.
Proof.
  intros Hs. eapply elem_of_sublist in Hs; [|apply sublist_take].
  apply list_elem_of_omap in Hs as (i & Hi & Hlook).
  apply sorted_elem_of, consistent_accumulated in Hi as (_ & t & Ht & Hm).
  rewrite Ht in Hlook. by injection Hlook as <-.
Qed.

Lemma omap_positions (pre l : list Ticker) :
  omap (λ i, stock_of <$> (pre ++ l) !! Z.to_nat i)
    (positions_from (ticker_matches query_lower) (Z.of_nat (length pre)) l)
  = filter (λ s, stock_matches query_lower s) (stock_of <$> l).
Proof.
  revert pre. induction l as [|t l IH]; intros pre; [done|].
  cbn [positions_from]. rewrite omap_app, fmap_cons.
  assert (omap (λ i, stock_of <$> (pre ++ t :: l) !! Z.to_nat i)
            (positions_from (ticker_matches query_lower)
               (Z.of_nat (length pre) + 1) l)
          = filter (λ s, stock_matches query_lower s) (stock_of <$> l)) as ->.
  { specialize (IH (pre ++ [t])). rewrite <- app_assoc, length_app in IH.
    cbn [app length] in IH.
    by replace (Z.of_nat (length pre + 1)) with (Z.of_nat (length pre) + 1)
      in IH by lia. }
  destruct (ticker_matches query_lower t) eqn:Hm.
  - rewrite filter_cons_True by (unfold ticker_matches in Hm; by rewrite Hm).
    cbn [omap list_omap]. rewrite Nat2Z.id.
    by rewrite (list_lookup_middle pre l t (length pre)).
  - rewrite filter_cons_False
      by (unfold ticker_matches in Hm; rewrite Hm; auto).
    done.
Qed.

Hypothesis Hcomplete : catalog_complete tks symbol_index name_index.
Hypothesis Hfew :
  (length (filter (λ s, stock_matches query_lower s) (stock_of <$> tks)) < 20)%nat.

Let matching : list Z := positions_from (ticker_matches query_lower) 0 tks.

Lemma matching_length : (length matching < 20)%nat.
Proof.
  subst matching. rewrite positions_from_length.
  eapply Nat.le_lt_trans; [|exact Hfew]. clear.
  induction tks as [|t l IH]; [done|]. rewrite fmap_cons.
  destruct (ticker_matches query_lower t) eqn:Hm.
  - rewrite !filter_cons_True
      by first [by rewrite Hm | unfold ticker_matches in Hm; by rewrite Hm].
    cbn. lia.
  - rewrite !filter_cons_False
      by first [rewrite Hm; by auto
               | unfold ticker_matches in Hm; rewrite Hm; by auto].
    done.
Qed.

Lemma results_set_subset (i : Z) : i ∈ results_set → i ∈ matching.
Proof.
  intros (Hpos & t & Ht & Hm)%consistent_accumulated.
  apply elem_of_positions_from. exists (Z.to_nat i), t.
  split; [done|]. split; [done | lia].
Qed.

Lemma results_set_small : (size results_set < 20)%nat.
Proof.
  eapply Nat.le_lt_trans; [|apply matching_length].
  rewrite <- (size_list_to_set (C := gset Z) matching)
    by apply StronglySorted_lt_NoDup, positions_from_sorted.
  apply subseteq_size. intros i Hi. apply elem_of_list_to_set.
  by apply results_set_subset.
Qed.

Lemma matching_subset (i : Z) : i ∈ matching → i ∈ results_set.
Proof.
  intros (k & t & Hk & Hm & ->)%elem_of_positions_from. rewrite Z.add_0_l.
  destruct Hcomplete as [Hsym Hname].
  destruct (accumulate_complete query query_lower tks symbol_index name_index
              results_set_small) as [Hall_sym Hall_name].
  unfold ticker_matches, stock_matches in Hm.
  cbn [stock_symbol stock_name stock_of] in Hm.
  apply orb_true_iff in Hm as [Hm|Hm].
  - eapply Hall_sym; [by apply Hsym | done].
  - destruct (Hname k t Hk) as (ids & Hin & Hi). by eapply Hall_name.
Qed.

Lemma sorted_results_set : sorted results_set = matching.
Proof.
  apply StronglySorted_lt_unique;
    [apply sorted_lt | apply positions_from_sorted|].
  intros z. rewrite sorted_elem_of. split;
    [apply results_set_subset | apply matching_subset].
Qed.

(** With fewer than twenty matching tickers in a consistent and complete
    catalog, the indexed search returns what the linear scan returns. *)
Lemma complete_indexed_search :
  indexed_search query query_lower tks symbol_index name_index
  = Return (_search_in_list query_lower (stock_of <$> tks)).
Proof.
  rewrite consistent_indexed_search, sorted_results_set, _search_in_list_spec.
  pose proof (omap_positions [] tks) as Homap. cbn [app length] in Homap.
  by rewrite <- Homap.
Qed.

End consistent_catalog.

Lemma sample_catalog_built : catalog_of_rows sample_rows = sample_catalog.
Proof. reflexivity. Qed.

Lemma sample_catalog_consistent :
  catalog_consistent sample_tickers (symbol_index_of sample_catalog)
    (name_index_of sample_catalog).
Proof. exact (built_catalog_consistent sample_rows). Qed.

Lemma sample_rows_distinct : distinct_symbols sample_rows.
Proof. unfold distinct_symbols. refine (bool_decide_unpack _ _). by vm_compute. Qed.

Lemma sample_catalog_complete :
  catalog_complete sample_tickers (symbol_index_of sample_catalog)
    (name_index_of sample_catalog).
Proof. exact (built_catalog_complete sample_rows sample_rows_distinct). Qed.

(** X18. On a consistent catalog the indexed search is sound with respect
    to the linear scan, for a non-empty query whose lowercase form
    survives uppercasing ([query.upper().lower() == query.lower()]): every
    stock returned has the trimmed, lowercased query in its lowercased
    symbol or in its lowercased name. *)
Theorem X18_consistent_catalog_results_match
    (query : string) (env : Env) (g : Globals)
    (jd : JsonData) (tks : list Ticker) (s : Stock) :
  globals_wf g →
  empty_query query = false →
  PyStr.lower (PyStr.upper query) = PyStr.lower query →
  fst (load_nse_json_data env g) = Some jd →
  tickers jd = Some tks →
  catalog_consistent tks (symbol_index_of jd) (name_index_of jd) →
  s ∈ fst (search_nse_stocks query env g) →
  stock_matches (PyStr.strip (PyStr.lower query)) s = true
  ∧ (is_substring (PyStr.strip (PyStr.lower query)) (PyStr.lower (stock_symbol s))
     ∨ is_substring (PyStr.strip (PyStr.lower query)) (PyStr.lower (stock_name s))).
Proof.
  intros Hwf Hq Hround Hload Htks Hcons.
  rewrite search_nse_stocks_fst by done. rewrite Hq, Hload, Htks. cbn zeta.
  rewrite consistent_indexed_search by done. intros Hs.
  assert (stock_matches (PyStr.strip (PyStr.lower query)) s = true) as Hm
    by (by eapply consistent_results_match).
  split; [done | by apply stock_matches_spec].
Qed.

Lemma X18_consistent_catalog_results_match_witness :
  globals_wf initial_globals
  ∧ empty_query "Tata" = false
  ∧ PyStr.lower (PyStr.upper "Tata") = PyStr.lower "Tata"
  ∧ (mkStock "TCS" "Tata Consultancy Services Limited"
       ∈ fst (search_nse_stocks "Tata" (mkEnv (Some sample_catalog) 0)
                initial_globals))
  ∧ stock_matches "tata" (mkStock "TCS" "Tata Consultancy Services Limited")
    = true.
Proof.
  assert (mkStock "TCS" "Tata Consultancy Services Limited"
            ∈ fst (search_nse_stocks "Tata" (mkEnv (Some sample_catalog) 0)
                     initial_globals)) as Hin by (vm_compute; left).
  split; [apply initial_globals_wf|]. split; [reflexivity|].
  split; [reflexivity|]. split; [exact Hin|].
  exact (proj1 (X18_consistent_catalog_results_match "Tata"
                  (mkEnv (Some sample_catalog) 0) initial_globals
                  sample_catalog sample_tickers _
                  initial_globals_wf eq_refl eq_refl eq_refl eq_refl
                  sample_catalog_consistent Hin)).
Defined.

(** X19. On a consistent and complete catalog in which fewer than twenty
    tickers match, and for a query whose lowercase form survives
    uppercasing, the indexed search and the linear scan give the same
    answer: the first ten matching tickers in the order of the ticker
    list. *)
Theorem X19_indexed_search_agrees_with_linear_scan
    (query : string) (env : Env) (g : Globals)
    (jd : JsonData) (tks : list Ticker) :
  globals_wf g →
  empty_query query = false →
  PyStr.lower (PyStr.upper query) = PyStr.lower query →
  fst (load_nse_json_data env g) = Some jd →
  tickers jd = Some tks →
  catalog_consistent tks (symbol_index_of jd) (name_index_of jd) →
  catalog_complete tks (symbol_index_of jd) (name_index_of jd) →
  (length (filter (λ s, stock_matches (PyStr.strip (PyStr.lower query)) s)
             (stock_of <$> tks)) < 20)%nat →
  fst (search_nse_stocks query env g)
  = _search_in_list (PyStr.strip (PyStr.lower query)) (stock_of <$> tks).
Proof.
  intros Hwf Hq Hround Hload Htks Hcons Hcompl Hfew.
  rewrite search_nse_stocks_fst by done. rewrite Hq, Hload, Htks. cbn zeta.
  by rewrite complete_indexed_search.
Qed.

Lemma X19_indexed_search_agrees_with_linear_scan_witness :
  globals_wf initial_globals
  ∧ empty_query "limited" = false
  ∧ PyStr.lower (PyStr.upper "limited") = PyStr.lower "limited"
  ∧ (length (filter (λ s, stock_matches "limited" s)
               (stock_of <$> sample_tickers)) < 20)%nat
  ∧ fst (search_nse_stocks "limited" (mkEnv (Some sample_catalog) 0)
           initial_globals)
    = _search_in_list "limited" (stock_of <$> sample_tickers).
Proof.
  assert (length (filter (λ s, stock_matches "limited" s)
                    (stock_of <$> sample_tickers)) < 20)%nat as Hfew
    by (vm_compute; lia).
  split; [apply initial_globals_wf|]. split; [reflexivity|].
  split; [reflexivity|]. split; [exact Hfew|].
  exact (X19_indexed_search_agrees_with_linear_scan "limited"
           (mkEnv (Some sample_catalog) 0) initial_globals
           sample_catalog sample_tickers
           initial_globals_wf eq_refl eq_refl eq_refl eq_refl
           sample_catalog_consistent sample_catalog_complete Hfew).
Defined.

(** X20. The builder and the service fit together. When the service loads
    the catalog that the builder made of the CSV rows, every stock
    returned for a non-empty query whose lowercase form survives
    uppercasing matches the query; and when no two rows share a symbol and
    fewer than twenty tickers match, the answer is exactly the first ten
    matching rows in CSV order, the answer of the linear scan. *)
Theorem X20_search_on_built_catalog
    (rows : list CsvRow) (query : string) :
  empty_query query = false →
  PyStr.lower (PyStr.upper query) = PyStr.lower query →
  let jd := catalog_of_rows rows in
  let query_lower := PyStr.strip (PyStr.lower query) in
  let results := run (search_nse_stocks query) (Some jd) in
  (∀ s, s ∈ results → stock_matches query_lower s = true)
  ∧ (distinct_symbols rows →
     (length (filter (λ s, stock_matches query_lower s)
                (stock_of <$> tickers_of jd)) < 20)%nat →
     results = _search_in_list query_lower (stock_of <$> tickers_of jd)).
Proof.
  intros Hq Hround jd query_lower results.
  assert (results
          = match indexed_search query query_lower (tickers_of jd)
                    (symbol_index_of jd) (name_index_of jd) with
            | Return r => r
            | Raise _ => _search_in_list query_lower (stock_of <$> tickers_of jd)
            end) as Hres.
  { subst results. unfold run.
    rewrite search_nse_stocks_fst by apply initial_globals_wf.
    by rewrite Hq. }
  pose proof (built_catalog_consistent rows) as Hcons.
  change (tickers_of jd)
    with (ticker_of_obj <$> sd_tickers (build_search_data rows)) in *.
  change (symbol_index_of jd) with (sd_symbolIndex (build_search_data rows)) in *.
  change (name_index_of jd) with (sd_nameIndex (build_search_data rows)) in *.
  subst query_lower. split.
  - intros s. rewrite Hres.
    rewrite (consistent_indexed_search query _ _ _ Hcons).
    by apply consistent_results_match.
  - intros Hdistinct Hfew. rewrite Hres.
    by rewrite (complete_indexed_search query _ _ _ Hcons Hround
                  (built_catalog_complete rows Hdistinct) Hfew).
Qed.

Lemma X20_search_on_built_catalog_witness :
  empty_query "tata" = false
  ∧ PyStr.lower (PyStr.upper "tata") = PyStr.lower "tata"
  ∧ distinct_symbols sample_rows
  ∧ run (search_nse_stocks "tata") (Some (catalog_of_rows sample_rows))
    = _search_in_list "tata" (stock_of <$> tickers_of (catalog_of_rows sample_rows)).
Proof.
  split; [reflexivity|]. split; [reflexivity|].
  split; [apply sample_rows_distinct|].
  apply (proj2 (X20_search_on_built_catalog sample_rows "tata" eq_refl eq_refl)
           sample_rows_distinct).
  vm_compute. lia.
Defined.

(** ** What the globals always satisfy *)

Section stamps.
Implicit Types (env : Env) (g : Globals).

Let stamped g : Prop :=
  is_Some (_nse_stocks_cache g) ↔ is_Some (_cache_timestamp g).

Lemma load_nse_json_data_stamped env g :
  stamped g → stamped (snd (load_nse_json_data env g)).
Proof. intros Hg. by rewrite load_nse_json_data_snd. Qed.

Lemma fetch_nse_equity_list_stamped env g :
  stamped g → stamped (snd (fetch_nse_equity_list env g)).
Proof.
  intros Hg. unfold fetch_nse_equity_list. unfold_M. cbn.
  destruct (fresh_cache g (env_time env)); [done|].
  pose proof (load_nse_json_data_stamped env g Hg) as Hg1.
  destruct (load_nse_json_data env g) as [[jd|] g1]; cbn in *; [|done].
  destruct (tickers jd); [|done]. cbn. unfold stamped. cbn.
  split; intros _; eauto.
Qed.

Lemma search_nse_stocks_stamped query env g :
  stamped g → stamped (snd (search_nse_stocks query env g)).
Proof.
  intros Hg. unfold search_nse_stocks.
  destruct (empty_query query); [done|]. unfold_M.
  pose proof (load_nse_json_data_stamped env g Hg) as Hg1.
  destruct (load_nse_json_data env g) as [json_data g1]. cbn [snd] in *.
  pose proof (fetch_nse_equity_list_stamped env g1 Hg1) as Hg2.
  destruct json_data as [jd|]; cbn [mbind option_bind].
  - destruct (tickers jd) as [tks|].
    + destruct (indexed_search _ _ _ _ _); [done|].
      by destruct (fetch_nse_equity_list env g1).
    + by destruct (fetch_nse_equity_list env g1).
  - by destruct (fetch_nse_equity_list env g1).
Qed.

Lemma get_nse_indices_stamped env g :
  stamped g → stamped (snd (get_nse_indices env g)).
Proof.
  intros Hg. unfold get_nse_indices. unfold_M.
  pose proof (fetch_nse_equity_list_stamped env g Hg).
  by destruct (fetch_nse_equity_list env g) as [[|s l] g1].
Qed.

Lemma reachable_stamped g : reachable g → stamped g.
Proof.
  induction 1;
    eauto using load_nse_json_data_stamped, fetch_nse_equity_list_stamped,
      search_nse_stocks_stamped, get_nse_indices_stamped.
  split; intros [x Hx]; discriminate Hx.
Qed.

End stamps.

(** X21. In every state that calls of the service functions can lead to,
    the cached equity list is the symbol-and-name projection of the ticker
    list of the cached JSON document (so the default set is never cached,
    and a cache implies a cached document), and the cache and its time
    stamp are set together. *)
Theorem X21_reachable_globals_invariant (g : Globals) :
  reachable g →
  (∀ cached, _nse_stocks_cache g = Some cached →
     ∃ jd tks, _json_data g = Some jd ∧ tickers jd = Some tks
               ∧ cached = stock_of <$> tks)
  ∧ (is_Some (_nse_stocks_cache g) ↔ is_Some (_cache_timestamp g)).
Proof.
  intros Hg. split; [by apply reachable_wf | by apply reachable_stamped].
Qed.

Lemma X21_reachable_globals_invariant_witness :
  let g := snd (search_nse_stocks "tcs" (mkEnv None 7)
                  (snd (get_nse_indices (mkEnv (Some sample_catalog) 0)
                          initial_globals))) in
  reachable g
  ∧ _nse_stocks_cache g = Some (stock_of <$> sample_tickers)
  ∧ (is_Some (_nse_stocks_cache g) ↔ is_Some (_cache_timestamp g)).
Proof.
  cbv zeta.
  assert (reachable (snd (search_nse_stocks "tcs" (mkEnv None 7)
                            (snd (get_nse_indices (mkEnv (Some sample_catalog) 0)
                                    initial_globals))))) as Hreach
    by (apply reach_search, reach_indices, reach_init).
  split; [exact Hreach|]. split; [reflexivity|].
  exact (proj2 (X21_reachable_globals_invariant _ Hreach)).
Defined.
